(** * prompt_playground: model registry, cost calculator and provider call layer

    A shallow embedding of [src/types.ts] (the model registry) and of
    [src/utils.ts] (cost calculator, tool executor, the four provider
    adapters with their tool round, and the [createApiCall] facade).

    Conventions of the embedding.
    - Token counts (JavaScript numbers holding integers) are [Z]; prices and
      costs are exact rationals [Q].  IEEE-754 rounding of the products and
      of the sum is outside the model.
    - An optional field [f?: T] is [option T]; JavaScript truthiness of a
      string or a number is written out ([truthy_str], [truthy_num]).
    - [await]ed effects are threaded through an explicit world: the log of
      the network requests the adapters issue, the log of callback
      notifications and the counter behind [crypto.randomUUID()].  A thrown
      [Error] is the [Err] outcome carrying its message.
    - The network, the tool sandbox, the JSON codec, the credential store
      and the clock are oracles, collected in the class [Env].  A tool's
      code returns JSON data or throws; what it fetches itself is not
      logged.  A streamed body is the list of its lines after the adapter's
      framing and parsing. *)

From Stdlib Require Import String List ZArith QArith Bool Lia.
Import ListNotations.
Open Scope string_scope.

Set Implicit Arguments.

(* ================================================================== *)
(** ** [src/types.ts] *)

Module Types.

Inductive LLMProvider := openai | anthropic | google | ollama.

(** The provider tag as the string it is in the source. *)
Definition providerName (p : LLMProvider) : string :=
  match p with
  | openai => "openai"
  | anthropic => "anthropic"
  | google => "google"
  | ollama => "ollama"
  end.

Record TokenUsage := mkTokenUsage {
  inputTokens : Z;
  outputTokens : Z;
  totalTokens : Z
}.

Record Cost := mkCost {
  input : Q;   (* cost per 1 million input tokens *)
  output : Q   (* cost per 1 million output tokens *)
}.

Record Model := mkModel {
  id : string;
  name : string;
  provider : LLMProvider;
  supportsTools : bool;
  cost : Cost
}.

Record LLMConfig := mkLLMConfig {
  model : string;
  apiKey : option string;
  baseUrl : option string;
  temperature : Q;
  maxTokens : Z
}.

(** The keys of [MODELS] in insertion order, as [Object.entries] and
    [Object.values] enumerate them. *)
Definition providers : list LLMProvider := [openai; anthropic; google; ollama].

Definition MODELS (p : LLMProvider) : list Model :=
  match p with
  | openai =>
      [ mkModel "gpt-4o-mini" "GPT-4o Mini" openai true (mkCost 0.15 0.6);
        mkModel "gpt-4.1-mini" "GPT-4.1 Mini" openai true (mkCost 0.4 1.6);
        mkModel "gpt-4.1-nano" "GPT-4.1 Nano" openai true (mkCost 0.1 0.025);
        mkModel "gpt-4.1" "GPT-4.1" openai true (mkCost 2.0 0.5) ]
  | anthropic =>
      [ mkModel "claude-sonnet-4-20250514" "Claude Sonnet 4" anthropic true
          (mkCost 3 15);
        mkModel "claude-3-7-sonnet-20250219" "Claude 3.7 Sonnet" anthropic true
          (mkCost 0.3 15);
        mkModel "claude-3-5-haiku-20241022" "Claude 3.5 Haiku" anthropic true
          (mkCost 0.08 4) ]
  | google =>
      [ mkModel "gemini-2.0-flash" "Gemini 2.0 Flash" google true
          (mkCost 0.1 0.4);
        mkModel "gemini-2.5-flash" "Gemini 2.5 Flash" google true
          (mkCost 0.15 0.6) ]
  | ollama =>
      [ mkModel "llama3.2" "Llama 3.2" ollama false (mkCost 0 0);
        mkModel "gemma3" "Gemma 3" ollama true (mkCost 0 0) ]
  end.

(** [(model) => model.id === modelId] *)
Definition hasId (modelId : string) (m : Model) : bool :=
  String.eqb (id m) modelId.

(** [for (const [provider, models] of Object.entries(MODELS))
       if (models.some(...)) return provider;
     return null] *)
Definition getProviderForModel (modelId : string) : option LLMProvider :=
  find (fun p => existsb (hasId modelId) (MODELS p)) providers.

(** The loop of [getModelInfo]: the first provider whose list holds a model
    with the id decides. *)
Fixpoint firstFound (modelId : string) (ps : list LLMProvider) : option Model :=
  match ps with
  | [] => None
  | p :: rest =>
      match find (hasId modelId) (MODELS p) with
      | Some m => Some m
      | None => firstFound modelId rest
      end
  end.

Definition getModelInfo (modelId : string) : option Model :=
  firstFound modelId providers.

(** JavaScript truthiness of an optional string: [undefined] and the empty
    string are falsy. *)
Definition truthy_str (s : option string) : bool :=
  match s with
  | Some s' => negb (String.eqb s' EmptyString)
  | None => false
  end.

(** JavaScript truthiness of an optional number: [undefined] and [0] are
    falsy. *)
Definition truthy_num (n : option Z) : bool :=
  match n with
  | Some z => negb (Z.eqb z 0)
  | None => false
  end.

Definition isModelComplete (modelId : string)
    (key url : option string) : bool :=
  match getProviderForModel modelId with
  | None => false
  | Some ollama => truthy_str url
  | Some _ => truthy_str key
  end.

End Types.

(* ================================================================== *)
(** ** [src/utils.ts]: the cost calculator *)

Module CostCalculator.
Import Types.

(** The three lines both branches of [calculateCost] share:
    [inputCost = (inputTokens / 1000000) * rates.input], likewise for the
    output, and their sum. *)
Definition ratesCost (rates : Cost) (tokenUsage : TokenUsage) : Q :=
  let inputCost := (inject_Z (inputTokens tokenUsage) / 1000000) * input rates in
  let outputCost := (inject_Z (outputTokens tokenUsage) / 1000000) * output rates in
  inputCost + outputCost.

(** [calculateCost] with its [console.warn] lines: the warnings written and
    the number returned. *)
Definition calculateCostLogged (tokenUsage : TokenUsage) (modelId : string)
    : list string * Q :=
  match getProviderForModel modelId with
  | None => (["Provider not found for model " ++ modelId], 0)
  | Some provider =>
      let providerModels := MODELS provider in
      match find (hasId modelId) providerModels with
      | None =>
          ( ["Model " ++ modelId ++ " not found for provider "
               ++ providerName provider ++ ", using default rates"],
            (* Fallback to first model's rates for the provider *)
            match providerModels with
            | [] => 0
            | fallbackModel :: _ => ratesCost (cost fallbackModel) tokenUsage
            end )
      | Some model => ([], ratesCost (cost model) tokenUsage)
      end
  end.

Definition calculateCost (tokenUsage : TokenUsage) (modelId : string) : Q :=
  snd (calculateCostLogged tokenUsage modelId).

(** [getModelCost] *)
Definition getModelCost (modelId : string) : Cost :=
  match getProviderForModel modelId with
  | None => mkCost 0 0
  | Some provider =>
      match find (hasId modelId) (MODELS provider) with
      | Some m => cost m
      | None => mkCost 0 0
      end
  end.

End CostCalculator.

(* ================================================================== *)
(** ** [src/utils.ts]: data of the call layer *)

Module Data.
Import Types.

#[local] Unset Elimination Schemes.

(** A JSON value ([unknown] / [Record<string, unknown>] in the source). *)
Inductive JsValue :=
| JNull
| JBool (b : bool)
| JNum (z : Z)
| JStr (s : string)
| JArr (items : list JsValue)
| JObj (fields : list (string * JsValue)).

#[local] Set Elimination Schemes.

Inductive Role := user | assistant | system | tool.

Definition roleName (r : Role) : string :=
  match r with
  | user => "user"
  | assistant => "assistant"
  | system => "system"
  | tool => "tool"
  end.

Definition isRole (a b : Role) : bool :=
  match a, b with
  | user, user | assistant, assistant | system, system | tool, tool => true
  | _, _ => false
  end.

(** [tool.function] *)
Record ToolFunction := mkToolFunction {
  fnName : string;
  fnDescription : string;
  fnParameters : JsValue
}.

(** The fields of a [Tool] the call layer reads. *)
Record Tool := mkTool {
  toolFunction : ToolFunction;
  code : string
}.

Record ToolCall := mkToolCall {
  callId : string;
  callName : string;
  arguments : JsValue
}.

(** A [Message]; its [timestamp] and [metadata] are never sent and are left
    out. *)
Record Message := mkMessage {
  msgId : string;
  role : Role;
  content : string;
  toolCalls : option (list ToolCall);
  toolCallId : option string
}.

(** What an adapter resolves to: [{ content, tokenUsage?, toolCalls? }]. *)
Record ApiResult := mkApiResult {
  resContent : string;
  resTokenUsage : option TokenUsage;
  resToolCalls : option (list ToolCall)
}.

(** What [createApiCall] resolves to. *)
Record Metadata := mkMetadata {
  tokenUsage : option TokenUsage;
  timeTaken : Z;
  metaCost : option Q
}.

Record CallResult := mkCallResult {
  finalContent : string;
  metadata : Metadata;
  issuedToolCalls : option (list ToolCall)
}.

(** *** Requests, as the adapters build them *)

Inductive WireArgs :=
| ArgsText (s : string)      (* arguments as a JSON string *)
| ArgsValue (v : JsValue).   (* arguments as an object *)

(** [{ id, type: "function", function: { name, arguments } }] *)
Record WireToolCall := mkWireToolCall {
  wtcId : string;
  wtcName : string;
  wtcArguments : WireArgs
}.

Inductive Part :=
| PText (text : string)
| PToolUse (useId useName : string) (input : JsValue)
| PToolResult (tool_use_id : option string) (result : string)
| PFunctionCall (fcName : string) (args : JsValue)
| PFunctionResponse (frName : string) (response : JsValue).

Inductive WireContent :=
| Plain (s : string)
| Parts (ps : list Part).

Record WireMessage := mkWireMessage {
  wRole : string;
  wContent : WireContent;
  tool_calls : option (list WireToolCall);
  tool_call_id : option string
}.

(** One [fetch]: the URL, the headers and the fields of the JSON body.  A
    field the adapter does not set is [None]. *)
Record Request := mkRequest {
  url : string;
  headers : list (string * string);
  bodyModel : option string;
  bodyMessages : list WireMessage;
  bodySystem : option string;
  bodyTemperature : Q;
  bodyMaxTokens : Z;
  stream : option bool;
  bodyTools : option (list ToolFunction);
  tool_choice : option string
}.

(** *** Responses, as the adapters read them *)

Inductive RawArgs :=
| RawText (s : string)
| RawValue (v : JsValue).

Record RawToolCall := mkRawToolCall {
  rawId : string;
  rawName : string;
  rawArguments : RawArgs
}.

(** [data.usage]: the OpenAI fields and the Anthropic fields. *)
Record Usage := mkUsage {
  prompt_tokens : option Z;
  completion_tokens : option Z;
  total_tokens : option Z;
  input_tokens : option Z;
  output_tokens : option Z
}.

(** [data.usageMetadata] *)
Record UsageMetadata := mkUsageMetadata {
  promptTokenCount : option Z;
  candidatesTokenCount : option Z;
  totalTokenCount : option Z
}.

(** [data.choices[0]?.message] *)
Record ChoiceMessage := mkChoiceMessage {
  choiceContent : option string;
  choiceToolCalls : option (list RawToolCall)
}.

(** A block of [data.content] *)
Inductive Block :=
| BText (text : string)
| BToolUse (blockId blockName : string) (input : JsValue)
| BOther.

(** A part of [data.candidates?.[0]?.content?.parts] *)
Record GooglePart := mkGooglePart {
  partText : option string;
  functionCall : option (string * option JsValue)
}.

(** The decoded JSON body, projected on the fields the adapters read.  A
    body on which these reads themselves throw (no [choices] array, say) is
    outside the model. *)
Record ResponseData := mkResponseData {
  choiceMessage : option ChoiceMessage;
  usage : option Usage;
  contentBlocks : option (list Block);
  candidateParts : option (list GooglePart);
  usageMetadata : option UsageMetadata;
  messageContent : option string;            (* data.message?.content *)
  messageToolCalls : option (list RawToolCall);
  prompt_eval_count : option Z;
  eval_count : option Z
}.

(** One line of a streamed body after framing and [JSON.parse]: the text
    fragment the adapter extracts from it (none for a line it skips), and
    the fields of the terminal frame of the local protocol. *)
Record StreamLine := mkStreamLine {
  fragment : option string;
  done : bool;
  linePromptEvalCount : option Z;
  lineEvalCount : option Z
}.

Record Response := mkResponse {
  ok : bool;
  statusText : string;
  errorMessage : option string;        (* error.error?.message *)
  body : option (list StreamLine);     (* response.body *)
  json : ResponseData                  (* await response.json() *)
}.

(** What running a tool's code body does.  [Returns] is for a body that
    resolves with JSON data, which [JSON.stringify] turns into a text. *)
Inductive ToolOutcome :=
| Returns (v : JsValue)
| ThrowsError (message : string)       (* an [Error], thrown or rejected *)
| ThrowsOther.                         (* any other thrown value *)

(** A notification delivered to one of the caller's callbacks. *)
Inductive Event :=
| Chunk (s : string)
| ToolCallIssued (tc : ToolCall)
| ToolResolved (id : string) (result : option JsValue) (error : option string).

(** A stored per-provider credential record. *)
Record ProviderConfig := mkProviderConfig {
  storedApiKey : option string;
  storedBaseUrl : option string
}.

(** *** The world a call runs in *)

Record World := mkWorld {
  requests : list Request;    (* every [fetch] the adapters issued so far, in
                                 order; what a tool's code fetches itself is
                                 not recorded *)
  events : list Event;        (* every callback invocation so far, in order *)
  uuids : nat                 (* [crypto.randomUUID()] calls so far *)
}.

Inductive Outcome (A : Type) :=
| Ok (a : A)
| Err (message : string).
Arguments Err {A} message.

Definition M (A : Type) : Type := World -> Outcome A * World.

Definition ret {A} (a : A) : M A := fun w => (Ok a, w).

Definition throw {A} (message : string) : M A := fun w => (Err message, w).

Definition bind {A B} (m : M A) (k : A -> M B) : M B :=
  fun w =>
    match m w with
    | (Ok a, w') => k a w'
    | (Err e, w') => (Err e, w')
    end.

(** [try { m } catch (error) { handler(error.message) }] *)
Definition tryCatch {A} (m : M A) (handler : string -> M A) : M A :=
  fun w =>
    match m w with
    | (Ok a, w') => (Ok a, w')
    | (Err e, w') => handler e w'
    end.

End Data.

(* ================================================================== *)
(** ** [src/utils.ts]: tool executor, adapters, facade *)

Module Utils.
Import Types CostCalculator Data.

Declare Scope call_scope.
Delimit Scope call_scope with call.
Notation "x <- m ;; k" := (bind m (fun x => k))
  (at level 61, m at next level, right associativity) : call_scope.
Notation "m ;;; k" := (bind m (fun _ => k))
  (at level 61, right associativity) : call_scope.
Open Scope call_scope.

(** The collaborators of the call layer. *)
Class Env := {
  (** [JSON.stringify], on values it serializes to a string. *)
  JSON_stringify : JsValue -> string;
  (** [JSON.parse]; [Err] with the message of the [SyntaxError] it throws. *)
  JSON_parse : string -> Outcome JsValue;
  (** The transport: the response to a request, given how many requests
      were issued before it. *)
  fetch : nat -> Request -> Response;
  (** The [AsyncFunction] built from a tool's code, applied to the
      arguments (and to [fetch]): what the body returns or throws.  The
      requests the body issues through the [fetch] it is handed are its own
      business and are not part of the request log. *)
  runCode : string -> JsValue -> ToolOutcome;
  (** The n-th identifier [crypto.randomUUID()] hands out. *)
  randomUUID : nat -> string;
  (** [storage.getProviderConfigs()[provider]] *)
  getProviderConfigs : LLMProvider -> option ProviderConfig;
  (** [Date.now()], given how many requests were issued so far. *)
  Date_now : nat -> Z
}.

Section WithEnv.
Context {E : Env}.

(** *** Primitive effects *)

Definition doFetch (req : Request) : M Response :=
  fun w =>
    ( Ok (fetch (length (requests w)) req),
      mkWorld (requests w ++ [req])%list (events w) (uuids w) ).

Definition newUUID : M string :=
  fun w =>
    (Ok (randomUUID (uuids w)), mkWorld (requests w) (events w) (S (uuids w))).

(** [if (callback) callback(...)]; the caller's callbacks only observe:
    they do not throw. *)
Definition notify (supplied : bool) (e : Event) : M unit :=
  fun w =>
    if supplied
    then (Ok tt, mkWorld (requests w) (events w ++ [e])%list (uuids w))
    else (Ok tt, w).

Definition now : M Z := fun w => (Ok (Date_now (length (requests w))), w).

(** *** Small JavaScript idioms *)

(** [s || fallback] on an optional string *)
Definition strOr (s : option string) (fallback : string) : string :=
  match s with
  | Some s' => if String.eqb s' EmptyString then fallback else s'
  | None => fallback
  end.

(** [n || 0] on an optional number *)
Definition numOrZero (n : option Z) : Z :=
  match n with
  | Some z => z
  | None => 0
  end.

(** The double-quote character, as a string. *)
Definition dquote : string :=
  String (Ascii.Ascii false true false false false true false false) EmptyString.

(** An optional string inside a template literal. *)
Definition interpolate (s : option string) : string :=
  match s with
  | Some s' => s'
  | None => "undefined"
  end.

Definition isEmpty {A} (l : list A) : bool :=
  match l with
  | [] => true
  | _ :: _ => false
  end.

(** [list.length > 0 ? list : undefined] *)
Definition nonEmpty {A} (l : list A) : option (list A) :=
  if isEmpty l then None else Some l.

(** *** Tool execution *)

Definition executeTool (t : Tool) (args : JsValue) : M JsValue :=
  match runCode (code t) args with
  | Returns result => ret result
  | ThrowsError message => throw ("Tool execution failed: " ++ message)
  | ThrowsOther => throw "Tool execution failed: Unknown error"
  end.

Definition parseToolArguments (a : RawArgs) : JsValue :=
  match a with
  | RawText s =>
      match JSON_parse s with
      | Ok v => v
      | Err _ => JObj []        (* warn: failed to parse tool arguments *)
      end
  | RawValue v => v
  end.

(** *** Reading a streamed body *)

(** The loop over the decoded lines: every non-empty fragment is appended to
    [fullContent] and handed to [onChunk]. *)
Fixpoint readStream (lines : list StreamLine) (fullContent : string) : M string :=
  match lines with
  | [] => ret fullContent
  | l :: rest =>
      if truthy_str (fragment l)
      then notify true (Chunk (interpolate (fragment l))) ;;;
           readStream rest (fullContent ++ interpolate (fragment l))
      else readStream rest fullContent
  end.

(** The usage the local protocol's terminal frame carries; the last such
    frame wins. *)
Fixpoint streamUsage (lines : list StreamLine) (acc : option TokenUsage)
    : option TokenUsage :=
  match lines with
  | [] => acc
  | l :: rest =>
      if done l && truthy_num (linePromptEvalCount l) && truthy_num (lineEvalCount l)
      then streamUsage rest
             (Some (mkTokenUsage (numOrZero (linePromptEvalCount l))
                                 (numOrZero (lineEvalCount l))
                                 (numOrZero (linePromptEvalCount l)
                                  + numOrZero (lineEvalCount l))))
      else streamUsage rest acc
  end.

(** *** The tool round, as each adapter carries it out *)

Definition sumUsage (a b : TokenUsage) : TokenUsage :=
  mkTokenUsage (inputTokens a + inputTokens b)
               (outputTokens a + outputTokens b)
               (totalTokens a + totalTokens b).

(** [initial && final ? { ...sums } : final || initial] *)
Definition combinedTokenUsage (initial final : option TokenUsage)
    : option TokenUsage :=
  match initial, final with
  | Some i, Some f => Some (sumUsage i f)
  | _, _ =>
      match final with
      | Some f => Some f
      | None => initial
      end
  end.

(** The body of the loop over [toolCallsToExecute]: one tool call resolved,
    its result (or error) message pushed on [messagesWithToolCalls]. *)
Definition resolveToolCall (tools : list Tool) (onToolCall onToolResult : bool)
    (toolCall : ToolCall) (messagesWithToolCalls : list Message)
    : M (list Message) :=
  notify onToolCall (ToolCallIssued toolCall) ;;;
  tryCatch
    ( t <- match find (fun t => String.eqb (fnName (toolFunction t))
                                           (callName toolCall)) tools with
           | Some t => ret t
           | None => throw ("Tool " ++ dquote ++ callName toolCall ++ dquote
                                ++ " not found")
           end ;;
      result <- executeTool t (arguments toolCall) ;;
      notify onToolResult (ToolResolved (callId toolCall) (Some result) None) ;;;
      i <- newUUID ;;
      ret (messagesWithToolCalls
             ++ [mkMessage i tool (JSON_stringify result) None
                           (Some (callId toolCall))])%list )
    (fun errorMessage =>
      notify onToolResult
             (ToolResolved (callId toolCall) None (Some errorMessage)) ;;;
      i <- newUUID ;;
      ret (messagesWithToolCalls
             ++ [mkMessage i tool ("Error: " ++ errorMessage) None
                           (Some (callId toolCall))])%list).

Fixpoint executeTools (tools : list Tool) (onToolCall onToolResult : bool)
    (toolCallsToExecute : list ToolCall) (messagesWithToolCalls : list Message)
    : M (list Message) :=
  match toolCallsToExecute with
  | [] => ret messagesWithToolCalls
  | toolCall :: rest =>
      extended <- resolveToolCall tools onToolCall onToolResult toolCall
                                  messagesWithToolCalls ;;
      executeTools tools onToolCall onToolResult rest extended
  end.

(** Everything after [makeApiCall] is defined: the initial call, the early
    return without tool calls, the tool round and the final call.  The four
    adapters repeat this text; the local one passes no notification
    callbacks. *)
Definition withToolRound (makeApiCall : list Message -> M ApiResult)
    (tools : list Tool) (onToolCall onToolResult : bool)
    (messages : list Message) : M ApiResult :=
  initialResult <- makeApiCall messages ;;
  match resToolCalls initialResult with
  | None => ret initialResult
  | Some [] => ret initialResult
  | Some toolCallsToExecute =>
      i <- newUUID ;;
      let assistantMessage :=
        mkMessage i assistant (resContent initialResult)
                  (Some toolCallsToExecute) None in
      messagesWithToolCalls <-
        executeTools tools onToolCall onToolResult toolCallsToExecute
                     (messages ++ [assistantMessage])%list ;;
      finalResult <- makeApiCall messagesWithToolCalls ;;
      ret (mkApiResult (resContent finalResult)
             (combinedTokenUsage (resTokenUsage initialResult)
                                 (resTokenUsage finalResult))
             (Some toolCallsToExecute))
  end.

(** [messages.find((msg) => msg.role === "system")?.content] *)
Definition systemContent (messages : list Message) : option string :=
  option_map content (find (fun msg => isRole (role msg) system) messages).

Definition notSystem (msg : Message) : bool := negb (isRole (role msg) system).

(** The declarations sent for the tools; the vendors wrap the same three
    fields differently. *)
Definition declarations (tools : list Tool) : list ToolFunction :=
  map toolFunction tools.

(** *** OpenAI *)

Definition openaiMessage (msg : Message) : WireMessage :=
  mkWireMessage (roleName (role msg)) (Plain (content msg))
    (option_map
       (map (fun tc => mkWireToolCall (callId tc) (callName tc)
                         (ArgsText (JSON_stringify (arguments tc)))))
       (toolCalls msg))
    (if truthy_str (toolCallId msg) then toolCallId msg else None).

Definition openaiRequest (config : LLMConfig) (tools : list Tool)
    (onChunk : bool) (messagesToSend : list Message) : Request :=
  let openAITools := declarations tools in
  mkRequest "https://api.openai.com/v1/chat/completions"
    [ ("Content-Type", "application/json");
      ("Authorization", "Bearer " ++ interpolate (apiKey config)) ]
    (Some (model config))
    (map openaiMessage messagesToSend)
    None
    (temperature config)
    (maxTokens config)
    (* Disable streaming when tools are present *)
    (Some (onChunk && isEmpty openAITools))
    (if isEmpty openAITools then None else Some openAITools)
    (if isEmpty openAITools then None else Some "auto").

Definition openaiTokenUsage (u : option Usage) : option TokenUsage :=
  match u with
  | Some u' =>
      Some (mkTokenUsage (numOrZero (prompt_tokens u'))
                         (numOrZero (completion_tokens u'))
                         (numOrZero (total_tokens u')))
  | None => None
  end.

Definition formatToolCall (tc : RawToolCall) : ToolCall :=
  mkToolCall (rawId tc) (rawName tc) (parseToolArguments (rawArguments tc)).

Definition openaiParse (data : ResponseData) : ApiResult :=
  let message := choiceMessage data in
  let content :=
    match message with
    | Some m => strOr (choiceContent m) EmptyString
    | None => EmptyString
    end in
  let toolCalls :=
    match message with
    | Some m => choiceToolCalls m
    | None => None
    end in
  let formattedToolCalls :=
    match toolCalls with
    | Some (tc :: rest) => Some (map formatToolCall (tc :: rest))
    | _ => None
    end in
  mkApiResult content (openaiTokenUsage (usage data)) formattedToolCalls.

Definition openaiMakeApiCall (config : LLMConfig) (tools : list Tool)
    (onChunk : bool) (messagesToSend : list Message) : M ApiResult :=
  response <- doFetch (openaiRequest config tools onChunk messagesToSend) ;;
  if negb (ok response)
  then throw ("OpenAI API error: "
              ++ strOr (errorMessage response) "Unknown error")
  else
    match (if onChunk && isEmpty (declarations tools)
           then body response else None) with
    | Some lines =>
        fullContent <- readStream lines EmptyString ;;
        ret (mkApiResult (strOr (Some fullContent) "No response received")
                         None None)
    | None => ret (openaiParse (json response))
    end.

Definition callOpenAI (messages : list Message) (config : LLMConfig)
    (tools : list Tool) (onChunk onToolCall onToolResult : bool)
    : M ApiResult :=
  if negb (truthy_str (apiKey config))
  then throw "OpenAI API key is required"
  else withToolRound (openaiMakeApiCall config tools onChunk)
                     tools onToolCall onToolResult messages.

(** *** Anthropic *)

Definition anthropicMessage (msg : Message) : WireMessage :=
  if isRole (role msg) tool
  then mkWireMessage "user"
         (Parts [PToolResult (toolCallId msg) (content msg)]) None None
  else
    match toolCalls msg with
    | Some tcs =>
        mkWireMessage (roleName (role msg))
          (Parts ((if truthy_str (Some (content msg))
                   then [PText (content msg)] else [])
                  ++ map (fun tc => PToolUse (callId tc) (callName tc)
                                             (arguments tc)) tcs)%list)
          None None
    | None =>
        mkWireMessage (roleName (role msg)) (Plain (content msg)) None None
    end.

(** [messages] is the adapter's own argument: the system text is always
    taken from the history the caller passed in. *)
Definition anthropicRequest (messages : list Message) (config : LLMConfig)
    (tools : list Tool) (onChunk : bool) (messagesToSend : list Message)
    : Request :=
  let anthropicTools := declarations tools in
  mkRequest "https://api.anthropic.com/v1/messages"
    [ ("Content-Type", "application/json");
      ("x-api-key", interpolate (apiKey config));
      ("anthropic-version", "2023-06-01") ]
    (Some (model config))
    (map anthropicMessage (filter notSystem messagesToSend))
    (systemContent messages)
    (temperature config)
    (maxTokens config)
    (Some (onChunk && isEmpty anthropicTools))
    (if isEmpty anthropicTools then None else Some anthropicTools)
    None.

Definition anthropicTokenUsage (u : option Usage) : option TokenUsage :=
  match u with
  | Some u' =>
      Some (mkTokenUsage (numOrZero (input_tokens u'))
                         (numOrZero (output_tokens u'))
                         (numOrZero (input_tokens u')
                          + numOrZero (output_tokens u')))
  | None => None
  end.

Fixpoint anthropicBlocks (blocks : list Block) (content : string)
    (toolCalls : list ToolCall) : string * list ToolCall :=
  match blocks with
  | [] => (content, toolCalls)
  | BText text :: rest => anthropicBlocks rest (content ++ text) toolCalls
  | BToolUse i n input :: rest =>
      anthropicBlocks rest content (toolCalls ++ [mkToolCall i n input])%list
  | BOther :: rest => anthropicBlocks rest content toolCalls
  end.

Definition anthropicParse (data : ResponseData) : ApiResult :=
  let '(content, toolCalls) :=
    match contentBlocks data with
    | Some blocks => anthropicBlocks blocks EmptyString []
    | None => (EmptyString, [])
    end in
  mkApiResult content (anthropicTokenUsage (usage data)) (nonEmpty toolCalls).

Definition anthropicMakeApiCall (messages : list Message) (config : LLMConfig)
    (tools : list Tool) (onChunk : bool) (messagesToSend : list Message)
    : M ApiResult :=
  response <- doFetch (anthropicRequest messages config tools onChunk
                                        messagesToSend) ;;
  if negb (ok response)
  then throw ("Anthropic API error: "
              ++ strOr (errorMessage response) "Unknown error")
  else
    match (if onChunk && isEmpty (declarations tools)
           then body response else None) with
    | Some lines =>
        fullContent <- readStream lines EmptyString ;;
        ret (mkApiResult (strOr (Some fullContent) "No response received")
                         None None)
    | None => ret (anthropicParse (json response))
    end.

Definition callAnthropic (messages : list Message) (config : LLMConfig)
    (tools : list Tool) (onChunk onToolCall onToolResult : bool)
    : M ApiResult :=
  if negb (truthy_str (apiKey config))
  then throw "Anthropic API key is required"
  else withToolRound (anthropicMakeApiCall messages config tools onChunk)
                     tools onToolCall onToolResult messages.

(** *** Google *)

(** [tc.id === msg.toolCallId] *)
Definition answers (toolCallId : option string) (tc : ToolCall) : bool :=
  match toolCallId with
  | Some i => String.eqb (callId tc) i
  | None => false
  end.

(** The loop that looks the tool name up in the history being sent. *)
Fixpoint lookupToolName (prev : list Message) (toolCallId : option string)
    : string :=
  match prev with
  | [] => "unknown"
  | prevMsg :: rest =>
      match toolCalls prevMsg with
      | Some tcs =>
          match find (answers toolCallId) tcs with
          | Some toolCall => callName toolCall
          | None => lookupToolName rest toolCallId
          end
      | None => lookupToolName rest toolCallId
      end
  end.

Definition googleRole (r : Role) : string :=
  if isRole r assistant then "model" else "user".

(** One entry of [contents]; [JSON.parse(msg.content)] may throw. *)
Definition googleMessage (messagesToSend : list Message) (msg : Message)
    : Outcome WireMessage :=
  if isRole (role msg) tool
  then
    match JSON_parse (content msg) with
    | Ok response =>
        Ok (mkWireMessage "function"
              (Parts [PFunctionResponse
                        (lookupToolName messagesToSend (toolCallId msg))
                        response])
              None None)
    | Err e => Err e
    end
  else
    match toolCalls msg with
    | Some tcs =>
        Ok (mkWireMessage (googleRole (role msg))
              (Parts ((if truthy_str (Some (content msg))
                       then [PText (content msg)] else [])
                      ++ map (fun tc => PFunctionCall (callName tc)
                                                      (arguments tc)) tcs)%list)
              None None)
    | None =>
        Ok (mkWireMessage (googleRole (role msg))
              (Parts [PText (content msg)]) None None)
    end.

Fixpoint googleContents (messagesToSend : list Message) (msgs : list Message)
    : Outcome (list WireMessage) :=
  match msgs with
  | [] => Ok []
  | msg :: rest =>
      match googleMessage messagesToSend msg with
      | Ok m =>
          match googleContents messagesToSend rest with
          | Ok ms => Ok (m :: ms)
          | Err e => Err e
          end
      | Err e => Err e
      end
  end.

Definition googleUrl (config : LLMConfig) (endpoint : string) : string :=
  "https://generativelanguage.googleapis.com/v1beta/models/"
  ++ model config ++ ":" ++ endpoint ++ "?key=" ++ interpolate (apiKey config).

(** [useStreaming ? "streamGenerateContent" : "generateContent"] *)
Definition googleEndpoint (useStreaming : bool) : string :=
  if useStreaming then "streamGenerateContent" else "generateContent".

Definition googleRequest (messages : list Message) (config : LLMConfig)
    (tools : list Tool) (onChunk : bool) (contents : list WireMessage)
    : Request :=
  let googleTools := declarations tools in
  let useStreaming := onChunk && isEmpty tools in
  mkRequest (googleUrl config (googleEndpoint useStreaming))
    [ ("Content-Type", "application/json") ]
    None
    contents
    (if truthy_str (systemContent messages)
     then systemContent messages else None)
    (temperature config)
    (maxTokens config)
    None
    (if isEmpty googleTools then None else Some googleTools)
    None.

Definition googleTokenUsage (u : option UsageMetadata) : option TokenUsage :=
  match u with
  | Some u' =>
      Some (mkTokenUsage (numOrZero (promptTokenCount u'))
                         (numOrZero (candidatesTokenCount u'))
                         (numOrZero (totalTokenCount u')))
  | None => None
  end.

(** [v || fallback] on a JSON value: [null], [false], [0] and the empty
    string are falsy, as is an absent value. *)
Definition truthy_value (v : option JsValue) : bool :=
  match v with
  | None | Some JNull => false
  | Some (JBool b) => b
  | Some (JNum z) => negb (Z.eqb z 0)
  | Some (JStr s) => negb (String.eqb s EmptyString)
  | Some (JArr _) | Some (JObj _) => true
  end.

Definition valueOr (v : option JsValue) (fallback : JsValue) : JsValue :=
  match v with
  | Some a => if truthy_value v then a else fallback
  | None => fallback
  end.

(** The loop over the candidate's parts; Google provides no call ids, so
    one is generated for every function call:
    [arguments: part.functionCall.args || {}]. *)
Fixpoint googleParts (parts : list GooglePart) (content : string)
    (toolCalls : list ToolCall) : M (string * list ToolCall) :=
  match parts with
  | [] => ret (content, toolCalls)
  | part :: rest =>
      if truthy_str (partText part)
      then googleParts rest (content ++ interpolate (partText part)) toolCalls
      else
        match functionCall part with
        | Some (fcName, fcArgs) =>
            i <- newUUID ;;
            googleParts rest content
              (toolCalls
                 ++ [mkToolCall i fcName
                       (valueOr fcArgs (JObj []))])%list
        | None => googleParts rest content toolCalls
        end
  end.

Definition googleParse (data : ResponseData) : M ApiResult :=
  parsed <- match candidateParts data with
            | Some parts => googleParts parts EmptyString []
            | None => ret (EmptyString, [])
            end ;;
  ret (mkApiResult (fst parsed) (googleTokenUsage (usageMetadata data))
                   (nonEmpty (snd parsed))).

Definition liftOutcome {A} (o : Outcome A) : M A := fun w => (o, w).

Definition googleMakeApiCall (messages : list Message) (config : LLMConfig)
    (tools : list Tool) (onChunk : bool) (messagesToSend : list Message)
    : M ApiResult :=
  contents <- liftOutcome
                (googleContents messagesToSend
                                (filter notSystem messagesToSend)) ;;
  (* non-streaming for tool calls *)
  let useStreaming := onChunk && isEmpty tools in
  response <- doFetch (googleRequest messages config tools onChunk contents) ;;
  if negb (ok response)
  then throw ("Google API error: "
              ++ strOr (errorMessage response) "Unknown error")
  else
    match (if useStreaming then body response else None) with
    | Some lines =>
        fullContent <- readStream lines EmptyString ;;
        ret (mkApiResult (strOr (Some fullContent) "No response received")
                         None None)
    | None => googleParse (json response)
    end.

Definition callGoogle (messages : list Message) (config : LLMConfig)
    (tools : list Tool) (onChunk onToolCall onToolResult : bool)
    : M ApiResult :=
  if negb (truthy_str (apiKey config))
  then throw "Google API key is required"
  else withToolRound (googleMakeApiCall messages config tools onChunk)
                     tools onToolCall onToolResult messages.

(** *** Ollama *)

(** [modelInfo?.supportsTools && tools.length > 0] *)
Definition ollamaSupportsTools (config : LLMConfig) (tools : list Tool) : bool :=
  match getModelInfo (model config) with
  | Some modelInfo => supportsTools modelInfo && negb (isEmpty tools)
  | None => false
  end.

Definition ollamaBaseUrl (config : LLMConfig) : string :=
  strOr (baseUrl config) "http://localhost:11434".

Definition ollamaMessage (msg : Message) : WireMessage :=
  if isRole (role msg) tool
  then mkWireMessage "tool" (Plain (content msg)) None (toolCallId msg)
  else
    match toolCalls msg with
    | Some tcs =>
        mkWireMessage (roleName (role msg)) (Plain (content msg))
          (Some (map (fun tc => mkWireToolCall (callId tc) (callName tc)
                                  (ArgsValue (arguments tc))) tcs))
          None
    | None =>
        mkWireMessage (roleName (role msg)) (Plain (content msg)) None None
    end.

Definition ollamaRequest (config : LLMConfig) (tools : list Tool)
    (onChunk : bool) (messagesToSend : list Message) : Request :=
  let supportsTools := ollamaSupportsTools config tools in
  let ollamaTools := if supportsTools then declarations tools else [] in
  mkRequest (ollamaBaseUrl config ++ "/api/chat")
    [ ("Content-Type", "application/json") ]
    (Some (model config))
    (map ollamaMessage messagesToSend)
    None
    (temperature config)
    (maxTokens config)
    (* Disable streaming for tool calls *)
    (Some (negb supportsTools && onChunk))
    (if supportsTools then Some ollamaTools else None)
    None.

(** [prompt_eval_count && eval_count ? { ... } : undefined] *)
Definition ollamaTokenUsage (promptEvalCount evalCount : option Z)
    : option TokenUsage :=
  if truthy_num promptEvalCount && truthy_num evalCount
  then Some (mkTokenUsage (numOrZero promptEvalCount) (numOrZero evalCount)
                          (numOrZero promptEvalCount + numOrZero evalCount))
  else None.

Definition ollamaParse (data : ResponseData) : ApiResult :=
  let content := strOr (messageContent data) "No response received" in
  let toolCalls :=
    match messageToolCalls data with
    | Some tcs => map formatToolCall tcs
    | None => []
    end in
  mkApiResult content
    (ollamaTokenUsage (prompt_eval_count data) (eval_count data))
    (nonEmpty toolCalls).

Definition ollamaMakeApiCall (config : LLMConfig) (tools : list Tool)
    (onChunk : bool) (messagesToSend : list Message) : M ApiResult :=
  let supportsTools := ollamaSupportsTools config tools in
  response <- doFetch (ollamaRequest config tools onChunk messagesToSend) ;;
  if negb (ok response)
  then throw ("Ollama API error: " ++ statusText response)
  else
    match (if negb supportsTools && onChunk
           then body response else None) with
    | Some lines =>
        fullContent <- readStream lines EmptyString ;;
        ret (mkApiResult (strOr (Some fullContent) "No response received")
                         (streamUsage lines None) None)
    | None => ret (ollamaParse (json response))
    end.

Definition callOllama (messages : list Message) (config : LLMConfig)
    (tools : list Tool) (onChunk : bool) : M ApiResult :=
  if negb (ollamaSupportsTools config tools)
  then ollamaMakeApiCall config tools onChunk messages
  else withToolRound (ollamaMakeApiCall config tools onChunk)
                     tools false false messages.

(** *** The facade *)

(** [{ ...config,
       ...(providerConfig?.apiKey && { apiKey: providerConfig.apiKey }),
       ...(providerConfig?.baseUrl && { baseUrl: providerConfig.baseUrl }) }] *)
Definition mergedConfig (config : LLMConfig)
    (providerConfig : option ProviderConfig) : LLMConfig :=
  let stored (field : ProviderConfig -> option string) :=
    match providerConfig with
    | Some pc => field pc
    | None => None
    end in
  mkLLMConfig (model config)
    (if truthy_str (stored storedApiKey)
     then stored storedApiKey else apiKey config)
    (if truthy_str (stored storedBaseUrl)
     then stored storedBaseUrl else baseUrl config)
    (temperature config)
    (maxTokens config).

(** The [switch (provider)]. *)
Definition callProvider (provider : LLMProvider) (messages : list Message)
    (config : LLMConfig) (tools : list Tool)
    (onChunk onToolCall onToolResult : bool) : M ApiResult :=
  match provider with
  | openai => callOpenAI messages config tools onChunk onToolCall onToolResult
  | anthropic =>
      callAnthropic messages config tools onChunk onToolCall onToolResult
  | google => callGoogle messages config tools onChunk onToolCall onToolResult
  | ollama => callOllama messages config tools onChunk
  end.

Definition createApiCall (messages : list Message) (config : LLMConfig)
    (tools : list Tool) (onChunk onToolCall onToolResult : bool)
    : M CallResult :=
  startTime <- now ;;
  match getProviderForModel (model config) with
  | None => throw ("Unknown provider for model: " ++ model config)
  | Some provider =>
      let merged := mergedConfig config (getProviderConfigs provider) in
      result <- callProvider provider messages merged tools
                             onChunk onToolCall onToolResult ;;
      endTime <- now ;;
      let timeTaken := (endTime - startTime)%Z in
      let cost :=
        match resTokenUsage result with
        | Some u => Some (calculateCost u (model merged))
        | None => None
        end in
      ret (mkCallResult (resContent result)
             (mkMetadata (resTokenUsage result) timeTaken cost)
             (resToolCalls result))
  end.

End WithEnv.
End Utils.

(* ================================================================== *)
(** ** Notions used to state the properties of the call layer *)

Module Statements.
Import Types CostCalculator Data Utils.

(** [m] only appends to the request log: at most [n] requests, each
    satisfying [P]. *)
Definition appends {A} (P : Request -> Prop) (n : nat) (m : M A) : Prop :=
  forall w, exists new,
    requests (snd (m w)) = (requests w ++ new)%list
    /\ Forall P new /\ (length new <= n)%nat.

(** [m] issues no request. *)
Definition silent {A} (m : M A) : Prop :=
  forall w, requests (snd (m w)) = requests w.

(** Every result [m] returns satisfies [Q]. *)
Definition returns {A} (Q : A -> Prop) (m : M A) : Prop :=
  forall w a w', m w = (Ok a, w') -> Q a.



(** The message a thrown value carries into the [catch] of [executeTool]. *)
Definition thrownMessage (o : ToolOutcome) : option string :=
  match o with
  | Returns _ => None
  | ThrowsError message => Some message
  | ThrowsOther => Some "Unknown error"
  end.

(** [(t) => t.function.name === toolCall.name] *)
Definition named (toolCall : ToolCall) (t : Tool) : bool :=
  String.eqb (fnName (toolFunction t)) (callName toolCall).

(** The cloud adapters require [config.apiKey]; the local one has no
    guard. *)
Definition hasCredential (p : LLMProvider) (config : LLMConfig) : bool :=
  match p with
  | ollama => true
  | _ => truthy_str (apiKey config)
  end.

(** The credential the specification requires of a call: [apiKey] for a
    cloud provider, [baseUrl] for the local one. *)
Definition requiredCredential (p : LLMProvider) (config : LLMConfig)
    : option string :=
  match p with
  | ollama => baseUrl config
  | _ => apiKey config
  end.

Definition keyRequired (p : LLMProvider) : string :=
  match p with
  | openai => "OpenAI API key is required"
  | anthropic => "Anthropic API key is required"
  | google => "Google API key is required"
  | ollama => EmptyString
  end.

(** Whether the adapter goes on to the tool round after its first call: the
    local adapter only when tools are sent. *)
Definition runsToolRound (p : LLMProvider) (config : LLMConfig)
    (tools : list Tool) : bool :=
  match p with
  | ollama => ollamaSupportsTools config tools
  | _ => true
  end.

(** The local adapter takes no notification callbacks. *)
Definition notifies (p : LLMProvider) (supplied : bool) : bool :=
  match p with
  | ollama => false
  | _ => supplied
  end.

(** The request is on the buffered transport: [stream: false] in the body,
    or, for Google, the [generateContent] endpoint. *)
Definition buffered (p : LLMProvider) (config : LLMConfig) (r : Request)
    : Prop :=
  match p with
  | google => url r = googleUrl config "generateContent"
  | _ => stream r = Some false
  end.

Section WithEnv.
Context {E : Env}.

(** The [makeApiCall] closure of each adapter. *)
Definition makeApiCallOf (p : LLMProvider) (messages : list Message)
    (config : LLMConfig) (tools : list Tool) (onChunk : bool)
    : list Message -> M ApiResult :=
  match p with
  | openai => openaiMakeApiCall config tools onChunk
  | anthropic => anthropicMakeApiCall messages config tools onChunk
  | google => googleMakeApiCall messages config tools onChunk
  | ollama => ollamaMakeApiCall config tools onChunk
  end.

(** The request that closure builds for a history; none when building the
    Google body throws. *)
Definition requestOf (p : LLMProvider) (messages : list Message)
    (config : LLMConfig) (tools : list Tool) (onChunk : bool)
    (messagesToSend : list Message) : option Request :=
  match p with
  | openai => Some (openaiRequest config tools onChunk messagesToSend)
  | anthropic =>
      Some (anthropicRequest messages config tools onChunk messagesToSend)
  | google =>
      match googleContents messagesToSend (filter notSystem messagesToSend) with
      | Ok contents =>
          Some (googleRequest messages config tools onChunk contents)
      | Err _ => None
      end
  | ollama => Some (ollamaRequest config tools onChunk messagesToSend)
  end.

(** The content of the [tool]-role message the tool round pushes for a tool
    call. *)
Definition toolMessageContent (tools : list Tool) (toolCall : ToolCall)
    : string :=
  match find (named toolCall) tools with
  | None => "Error: Tool " ++ dquote ++ callName toolCall ++ dquote
            ++ " not found"
  | Some t =>
      match runCode (code t) (arguments toolCall) with
      | Returns result => JSON_stringify result
      | ThrowsError message => "Error: Tool execution failed: " ++ message
      | ThrowsOther => "Error: Tool execution failed: Unknown error"
      end
  end.

(** The message pushed for a tool call answers that call. *)
Definition answersCall (tools : list Tool) (toolCall : ToolCall)
    (msg : Message) : Prop :=
  role msg = tool
  /\ toolCallId msg = Some (callId toolCall)
  /\ toolCalls msg = None
  /\ content msg = toolMessageContent tools toolCall.


End WithEnv.
End Statements.

(* ================================================================== *)
(** ** Concrete collaborators for the scenarios *)

Module Scenario.
Import Types CostCalculator Data Utils Statements.
#[local] Open Scope Z_scope.

Definition emptyWorld : World := mkWorld [] [] 0.

Definition question : Message :=
  mkMessage "m1" user "Weather in Paris?" None None.

Definition lookupTool : Tool :=
  mkTool (mkToolFunction "lookup" "Looks the weather of a city up" (JObj []))
         "return { temp: 20 }".

Definition brokenCode : string := "throw new Error('network down')".

Definition brokenTool : Tool :=
  mkTool (mkToolFunction "lookup" "Looks the weather of a city up" (JObj []))
         brokenCode.

Definition parisArgs : JsValue := JObj [("city", JStr "Paris")].

(** A first response that requests the tool "lookup", in the shape of each
    vendor. *)
Definition toolCallData : ResponseData :=
  mkResponseData
    (Some (mkChoiceMessage None
             (Some [mkRawToolCall "call_1" "lookup" (RawValue parisArgs)])))
    (Some (mkUsage (Some 20) (Some 5) (Some 25) (Some 20) (Some 5)))
    (Some [BToolUse "call_1" "lookup" parisArgs])
    (Some [mkGooglePart None (Some ("lookup", Some parisArgs))])
    (Some (mkUsageMetadata (Some 20) (Some 5) (Some 25)))
    None
    (Some [mkRawToolCall "call_1" "lookup" (RawValue parisArgs)])
    (Some 20) (Some 5).

(** A final answer without tool calls; [total] is the total the vendor
    reports. *)
Definition answerData (total : Z) : ResponseData :=
  mkResponseData
    (Some (mkChoiceMessage (Some "It is 20 degrees") None))
    (Some (mkUsage (Some 10) (Some 1) (Some total) (Some 10) (Some 1)))
    (Some [BText "It is 20 degrees"])
    (Some [mkGooglePart (Some "It is 20 degrees") None])
    (Some (mkUsageMetadata (Some 10) (Some 1) (Some total)))
    (Some "It is 20 degrees")
    None
    (Some 10) (Some 1).

Definition answerStream : list StreamLine :=
  [ mkStreamLine (Some "It is ") false None None;
    mkStreamLine None false None None;
    mkStreamLine (Some "20 degrees") true (Some 10) (Some 1) ].

(** A transport that asks for the tool on the first request that declares
    tools and answers otherwise; a sandbox in which [brokenCode] throws
    "network down"; a credential store that holds an OpenAI key only. *)
Definition demoEnv (total : Z) : Env :=
  {| JSON_stringify := fun _ => "{temp:20}";
     JSON_parse := fun s =>
       if String.prefix "Error" s
       then Err "Unexpected token E in JSON at position 0"
       else Ok (JObj []);
     fetch := fun n req =>
       mkResponse true "OK" None (Some answerStream)
         (match n, bodyTools req with
          | O, Some _ => toolCallData
          | _, _ => answerData total
          end);
     runCode := fun c _ =>
       if String.eqb c brokenCode
       then ThrowsError "network down"
       else Returns (JObj [("temp", JNum 20)]);
     randomUUID := fun n => "uuid-" ++ String (Ascii.ascii_of_nat (48 + n)) EmptyString;
     getProviderConfigs := fun p =>
       match p with
       | openai => Some (mkProviderConfig (Some "sk-openai") None)
       | _ => None
       end;
     Date_now := fun n => (1000 + 250 * Z.of_nat n)%Z |}.

Definition configFor (modelId : string) (key url : option string) : LLMConfig :=
  mkLLMConfig modelId key url 0.2 100.

Definition gpt : LLMConfig := configFor "gpt-4o-mini" (Some "sk-test") None.
Definition gemini : LLMConfig :=
  configFor "gemini-2.0-flash" (Some "sk-test") None.
Definition gemma : LLMConfig := configFor "gemma3" None None.
Definition llama : LLMConfig := configFor "llama3.2" None None.

(** A configuration for an Anthropic model that still holds the key typed in
    for OpenAI. *)
Definition claudeWithLeftoverKey : LLMConfig :=
  configFor "claude-sonnet-4-20250514" (Some "sk-openai") None.

Definition lookupParis : ToolCall := mkToolCall "call_1" "lookup" parisArgs.

Definition noResult : ApiResult := mkApiResult EmptyString None None.

(** The texts of the tool messages a request carries. *)
Definition toolTexts (r : Request) : list WireContent :=
  map wContent (filter (fun m => String.eqb (wRole m) "tool") (bodyMessages r)).

(** The result of a run, for a run that is known to succeed. *)
Definition resultOf {A} (fallback : A) (run : Outcome A * World) : A :=
  match fst run with
  | Ok a => a
  | Err _ => fallback
  end.

End Scenario.

(* ================================================================== *)
(** ** [src/utils.ts]: the [storage] object *)

Module Storage.
Import Types CostCalculator Data Utils.

Definition PROMPTS_KEY : string := "playground_prompts".
Definition CONFIG_KEY : string := "playground_config".
Definition PROVIDER_CONFIGS_KEY : string := "playground_provider_configs".

(** [localStorage]: the text stored under each key. *)
Definition LocalStorage : Type := string -> option string.

Definition getItem (key : string) (ls : LocalStorage) : option string :=
  ls key.

Definition setItem (key value : string) (ls : LocalStorage) : LocalStorage :=
  fun k => if String.eqb k key then Some value else ls k.

Section WithEnv.
Context {E : Env}.

(** The body the getters share:
    [try { const stored = localStorage.getItem(KEY);
           return stored ? JSON.parse(stored) : fallback; }
     catch { return fallback; }] *)
Definition readStored (key : string) (fallback : JsValue) (ls : LocalStorage)
    : JsValue :=
  if truthy_str (getItem key ls)
  then
    match JSON_parse (interpolate (getItem key ls)) with
    | Ok v => v
    | Err _ => fallback
    end
  else fallback.

Definition getPrompts (ls : LocalStorage) : JsValue :=
  readStored PROMPTS_KEY (JArr []) ls.

Definition savePrompts (prompts : JsValue) (ls : LocalStorage) : LocalStorage :=
  setItem PROMPTS_KEY (JSON_stringify prompts) ls.

Definition getConfig (ls : LocalStorage) : JsValue :=
  readStored CONFIG_KEY (JObj []) ls.

Definition saveConfig (config : JsValue) (ls : LocalStorage) : LocalStorage :=
  setItem CONFIG_KEY (JSON_stringify config) ls.

Definition getStoredProviderConfigs (ls : LocalStorage) : JsValue :=
  readStored PROVIDER_CONFIGS_KEY (JObj []) ls.

Definition saveProviderConfigs (configs : JsValue) (ls : LocalStorage)
    : LocalStorage :=
  setItem PROVIDER_CONFIGS_KEY (JSON_stringify configs) ls.

End WithEnv.
End Storage.

(* ================================================================== *)
(** ** [src/hooks/usePlaygroundState.ts]: the state updaters *)

Module Hook.
Import Types CostCalculator Data Utils.

(** A [Prompt]; the two dates are clock readings ([new Date()]). *)
Record Prompt := mkPrompt {
  promptId : string;
  promptName : string;
  promptContent : string;
  createdAt : Z;
  updatedAt : Z
}.

(** A [Tool] as the hook keeps it: the fields the call layer reads, under the
    tool's [id]. *)
Record ToolEntry := mkToolEntry {
  entryId : string;
  entry : Tool
}.

Definition entryName (t : ToolEntry) : string := fnName (toolFunction (entry t)).

(** [prev.includes(x)] *)
Definition includes (x : string) (l : list string) : bool :=
  existsb (String.eqb x) l.

(** [createPrompt]: [(prev) => [newPrompt, ...prev]] *)
Definition createPrompt (newId : string) (created updated : Z)
    (name content : string) (prev : list Prompt) : list Prompt :=
  mkPrompt newId name content created updated :: prev.

(** [updatePrompt]: the updater passed to [setPrompts]. *)
Definition updatePrompt (now : Z) (id name content : string)
    (prev : list Prompt) : list Prompt :=
  map (fun prompt =>
         if String.eqb (promptId prompt) id
         then mkPrompt (promptId prompt) name content (createdAt prompt) now
         else prompt)
      prev.

(** [deletePrompt]: [(prev) => prev.filter((prompt) => prompt.id !== id)] *)
Definition deletePrompt (id : string) (prev : list Prompt) : list Prompt :=
  filter (fun prompt => negb (String.eqb (promptId prompt) id)) prev.

(** The updater of [importPrompts]: imported prompts whose name is not
    taken, then the existing ones. *)
Definition importPrompts (importedPrompts prev : list Prompt) : list Prompt :=
  let existingNames := map promptName prev in
  let newPrompts :=
    filter (fun p => negb (includes (promptName p) existingNames))
           importedPrompts in
  (newPrompts ++ prev)%list.

(** The updater of [importTools]. *)
Definition importTools (importedTools prev : list ToolEntry) : list ToolEntry :=
  let existingNames := map entryName prev in
  let newTools :=
    filter (fun t => negb (includes (entryName t) existingNames))
           importedTools in
  (newTools ++ prev)%list.

(** [deleteTool]: both updaters, on the tools and on the selected ids. *)
Definition deleteTool (id : string) (state : list ToolEntry * list string)
    : list ToolEntry * list string :=
  ( filter (fun t => negb (String.eqb (entryId t) id)) (fst state),
    filter (fun toolId => negb (String.eqb toolId id)) (snd state) ).

(** [toggleTool]: the updater passed to [setSelectedToolIds]. *)
Definition toggleTool (toolId : string) (prev : list string) : list string :=
  if includes toolId prev
  then filter (fun id => negb (String.eqb id toolId)) prev
  else (prev ++ [toolId])%list.

(** [tools.filter((tool) => selectedToolIds.includes(tool.id))] *)
Definition selectedTools (tools : list ToolEntry) (selectedToolIds : list string)
    : list ToolEntry :=
  filter (fun t => includes (entryId t) selectedToolIds) tools.

(** The configuration and the error message the hook holds. *)
Record Settings := mkSettings {
  config : LLMConfig;
  error : option string
}.

(** [updateModel] *)
Definition updateModel (modelId : string) (s : Settings) : Settings :=
  match getProviderForModel modelId with
  | None => mkSettings (config s) (Some ("Unknown model: " ++ modelId))
  | Some _ =>
      mkSettings
        (mkLLMConfig modelId (apiKey (config s)) (baseUrl (config s))
                     (temperature (config s)) (maxTokens (config s)))
        None
  end.

(** The [onChunk] callback of [sendMessage]: the updater it passes to
    [setConversation], on the messages. *)
Definition onChunk (assistantMessageId chunk : string) (messages : list Message)
    : list Message :=
  map (fun msg =>
         if String.eqb (msgId msg) assistantMessageId
         then mkMessage (msgId msg) (role msg) (content msg ++ chunk)
                        (toolCalls msg) (toolCallId msg)
         else msg)
      messages.

End Hook.

(* ================================================================== *)
(** ** Further notions used to state properties *)

Module MoreStatements.
Import Types CostCalculator Data Utils Statements.

(** [m] only appends to the callback log, and only events satisfying [P]. *)
Definition emits {A} (P : Event -> Prop) (m : M A) : Prop :=
  forall w, exists new,
    events (snd (m w)) = (events w ++ new)%list /\ Forall P new.

Definition isChunk (e : Event) : Prop :=
  match e with
  | Chunk _ => True
  | _ => False
  end.

Definition notChunk (e : Event) : Prop :=
  match e with
  | Chunk _ => False
  | _ => True
  end.

(** The text fragments of a streamed body: the non-empty ones, in order. *)
Fixpoint fragments (lines : list StreamLine) : list string :=
  match lines with
  | [] => []
  | l :: rest =>
      if truthy_str (fragment l)
      then interpolate (fragment l) :: fragments rest
      else fragments rest
  end.

(** The role names an adapter may put in the turn sequence. *)
Definition wireRoles (p : LLMProvider) : list string :=
  match p with
  | openai | ollama => ["user"; "assistant"; "system"; "tool"]
  | anthropic => ["user"; "assistant"]
  | google => ["user"; "model"; "function"]
  end.

(** Where the system text of the caller's history travels: in a top-level
    field for Anthropic and Google, nowhere outside the turns for the
    others. *)
Definition systemField (p : LLMProvider) (messages : list Message)
    : option string :=
  match p with
  | anthropic => systemContent messages
  | google =>
      if truthy_str (systemContent messages)
      then systemContent messages else None
  | _ => None
  end.

Definition hasContent (r : ApiResult) : Prop := resContent r <> EmptyString.

(** Whether the [makeApiCall] of an adapter reads the response as a stream
    when it has a body: the condition of each adapter's streaming branch. *)
Definition streams (p : LLMProvider) (config : LLMConfig) (tools : list Tool)
    (onChunk : bool) : bool :=
  match p with
  | openai | anthropic => onChunk && isEmpty (declarations tools)
  | google => onChunk && isEmpty tools
  | ollama => negb (ollamaSupportsTools config tools) && onChunk
  end.

(** The fragments of a streamed body, joined. *)
Definition joined (l : list string) : string :=
  fold_right String.append EmptyString l.

End MoreStatements.


(* ================================================================== *)
(** ** Further concrete inputs *)

Module MoreScenario.
Import Types CostCalculator Data Utils Statements Scenario Storage.
#[local] Open Scope Z_scope.

(** A tool the model of the scenario never asks for. *)
Definition clockTool : Tool :=
  mkTool (mkToolFunction "clock" "Tells the time" (JObj []))
         "return { hour: 12 }".

Definition unknownModel : LLMConfig := configFor "does-not-exist" None None.

(** A Google model, no key typed in. *)
Definition geminiWithoutKey : LLMConfig :=
  configFor "gemini-2.0-flash" None None.

Definition noCallResult : CallResult :=
  mkCallResult EmptyString (mkMetadata None 0 None) None.

Definition emptyStorage : LocalStorage := fun _ => None.

(** A JSON codec for the objects the storage scenario saves: an object with
    one text field is written as [{"<key>":"<text>"}], and read back from
    that form. *)
Definition printFlat (v : JsValue) : string :=
  match v with
  | JObj [] => "{}"
  | JObj [(key, JStr text)] =>
      "{" ++ dquote ++ key ++ dquote ++ ":" ++ dquote ++ text ++ dquote ++ "}"
  | JArr [] => "[]"
  | _ => "null"
  end.

Definition parseFlat (s : string) : Outcome JsValue :=
  if String.eqb s "{}" then Ok (JObj [])
  else if String.eqb s "[]" then Ok (JArr [])
  else if String.eqb s "null" then Ok JNull
  else if String.prefix ("{" ++ dquote ++ "model" ++ dquote ++ ":" ++ dquote) s
          && String.eqb (String.substring (String.length s - 2) 2 s)
                        (dquote ++ "}")
  then Ok (JObj [("model",
                  JStr (String.substring 10 (String.length s - 12) s))])
  else Err "Unexpected token in JSON".

Definition storageEnv : Env :=
  {| JSON_stringify := printFlat;
     JSON_parse := parseFlat;
     fetch := fetch (Env := demoEnv 11);
     runCode := runCode (Env := demoEnv 11);
     randomUUID := randomUUID (Env := demoEnv 11);
     getProviderConfigs := getProviderConfigs (Env := demoEnv 11);
     Date_now := Date_now (Env := demoEnv 11) |}.

(** A stored configuration that differs from what the getters fall back
    to. *)
Definition savedModel : JsValue := JObj [("model", JStr "gpt-4o-mini")].

(** A storage that already holds another configuration and another
    credential record. *)
Definition usedStorage : LocalStorage :=
  setItem CONFIG_KEY "{}"
    (setItem PROVIDER_CONFIGS_KEY "{}" emptyStorage).

(** The first round of the OpenAI adapter on the question of the scenario. *)
Definition firstRound (tools : list Tool) : Outcome ApiResult * World :=
  makeApiCallOf (E := demoEnv 11) openai [question] gpt tools false [question]
                emptyWorld.

End MoreScenario.
(* ================================================================== *)
(** ** Properties of the registry and of the cost calculator *)

Module CostFacts.
Import Types CostCalculator.

Lemma find_none_existsb {A} (f : A -> bool) (l : list A) :
  find f l = None -> existsb f l = false.
Proof.
  induction l as [|a l IH]; simpl; [reflexivity|].
  destruct (f a); [discriminate | exact IH].
Qed.

Lemma find_some_existsb {A} (f : A -> bool) (l : list A) (x : A) :
  find f l = Some x -> existsb f l = true.
Proof.
  induction l as [|a l IH]; simpl; [discriminate|].
  destruct (f a); [reflexivity | exact IH].
Qed.

Lemma existsb_find_some {A} (f : A -> bool) (l : list A) :
  existsb f l = true -> exists x, find f l = Some x.
Proof.
  induction l as [|a l IH]; simpl; [discriminate|].
  destruct (f a); [eauto | exact IH].
Qed.

(** The provider [getProviderForModel] resolves is the one in whose list
    [getModelInfo] finds the model. *)
Lemma firstFound_provider (modelId : string) (m : Model) (ps : list LLMProvider) :
  firstFound modelId ps = Some m ->
  exists p,
    find (fun p => existsb (hasId modelId) (MODELS p)) ps = Some p
    /\ find (hasId modelId) (MODELS p) = Some m.
Proof.
  induction ps as [|a ps IH]; simpl; [discriminate|].
  destruct (find (hasId modelId) (MODELS a)) as [m'|] eqn:Hf.
  - intros [= <-]. rewrite (find_some_existsb _ _ Hf). eauto.
  - intros H. rewrite (find_none_existsb _ _ Hf). auto.
Qed.

(** A resolved provider always holds a model with the id: the lookup of
    [calculateCost] in the provider's list cannot miss. *)
Lemma resolved_provider_has_model (modelId : string) (p : LLMProvider) :
  getProviderForModel modelId = Some p ->
  exists m, find (hasId modelId) (MODELS p) = Some m.
Proof.
  unfold getProviderForModel. intros H.
  apply find_some in H. destruct H as [_ H].
  now apply existsb_find_some.
Qed.

Lemma registry_rates_nonneg (p : LLMProvider) (m : Model) :
  In m (MODELS p) -> 0 <= input (cost m) /\ 0 <= output (cost m).
Proof.
  destruct p; simpl; intros H;
    repeat (destruct H as [<-|H]; [split; compute; discriminate|]);
    contradiction.
Qed.

Lemma tokens_per_million_le (a b : Z) :
  (a <= b)%Z -> inject_Z a / 1000000 <= inject_Z b / 1000000.
Proof.
  intros H. unfold Qdiv.
  apply Qmult_le_compat_r.
  - now rewrite <- Zle_Qle.
  - compute; discriminate.
Qed.

Lemma ratesCost_le (rates : Cost) (u1 u2 : TokenUsage) :
  0 <= input rates -> 0 <= output rates ->
  (inputTokens u1 <= inputTokens u2)%Z ->
  (outputTokens u1 <= outputTokens u2)%Z ->
  ratesCost rates u1 <= ratesCost rates u2.
Proof.
  intros Hi Ho Hin Hout. unfold ratesCost.
  apply Qplus_le_compat; apply Qmult_le_compat_r;
    auto using tokens_per_million_le.
Qed.






(** C9. For a fixed model id the cost is monotonic in the usage.  The token
    counts need not be assumed non-negative: the rates of the registry
    are. *)
Theorem calculateCost_monotonic (usage1 usage2 : TokenUsage) (modelId : string) :
  (inputTokens usage1 <= inputTokens usage2)%Z ->
  (outputTokens usage1 <= outputTokens usage2)%Z ->
  calculateCost usage1 modelId <= calculateCost usage2 modelId.
Proof.
  intros Hin Hout. unfold calculateCost, calculateCostLogged.
  destruct (getProviderForModel modelId) as [p|]; simpl; [|apply Qle_refl].
  destruct (find (hasId modelId) (MODELS p)) as [m|] eqn:Hm; simpl.
  - apply find_some in Hm. destruct Hm as [Hm _].
    destruct (registry_rates_nonneg _ _ Hm). now apply ratesCost_le.
  - destruct (MODELS p) as [|m rest] eqn:Hl; [apply Qle_refl|].
    assert (In m (MODELS p)) as Hi by (rewrite Hl; now left).
    destruct (registry_rates_nonneg _ _ Hi). now apply ratesCost_le.
Qed.

(** More tokens of both kinds under GPT-4.1 cost at least as much. *)
Lemma calculateCost_monotonic_example :
  calculateCost (mkTokenUsage 10 1 11) "gpt-4.1"
  <= calculateCost (mkTokenUsage 25 4 29) "gpt-4.1".
Proof.
  apply (calculateCost_monotonic (mkTokenUsage 10 1 11) (mkTokenUsage 25 4 29)
           "gpt-4.1"); simpl; lia.
Defined.

End CostFacts.

(* ================================================================== *)
(** ** Properties of the call layer *)

Module CallFacts.
Import Types CostCalculator Data Utils Statements.
#[local] Close Scope Q_scope.
#[local] Open Scope nat_scope.

Section WithEnv.
Context {E : Env}.

(** *** Small facts on the JavaScript idioms *)

Lemma strOr_falsy (s : option string) (fallback : string) :
  truthy_str s = false -> strOr s fallback = fallback.
Proof.
  destruct s as [s|]; simpl; [|reflexivity].
  destruct (String.eqb s EmptyString); [reflexivity | discriminate].
Qed.

Lemma isEmpty_map {A B} (f : A -> B) (l : list A) :
  isEmpty (map f l) = isEmpty l.
Proof. destruct l; reflexivity. Qed.

Lemma isEmpty_false {A} (l : list A) : l <> [] -> isEmpty l = false.
Proof. destruct l; [congruence | reflexivity]. Qed.

(** *** Computations that issue no request *)

Lemma silent_ret {A} (a : A) : silent (ret a).
Proof. intros w; reflexivity. Qed.

Lemma silent_throw {A} (e : string) : silent (@throw A e).
Proof. intros w; reflexivity. Qed.

Lemma silent_liftOutcome {A} (o : Outcome A) : silent (liftOutcome o).
Proof. intros w; reflexivity. Qed.

Lemma silent_notify (supplied : bool) (e : Event) : silent (notify supplied e).
Proof. intros w; unfold notify; destruct supplied; reflexivity. Qed.

Lemma silent_newUUID : silent newUUID.
Proof. intros w; reflexivity. Qed.

Lemma silent_now : silent now.
Proof. intros w; reflexivity. Qed.

Lemma silent_bind {A B} (m : M A) (k : A -> M B) :
  silent m -> (forall a, silent (k a)) -> silent (bind m k).
Proof.
  intros Hm Hk w. unfold bind. specialize (Hm w).
  destruct (m w) as [[a|e] w1]; simpl in *; [|exact Hm].
  now rewrite Hk.
Qed.

Lemma silent_tryCatch {A} (m : M A) (h : string -> M A) :
  silent m -> (forall e, silent (h e)) -> silent (tryCatch m h).
Proof.
  intros Hm Hh w. unfold tryCatch. specialize (Hm w).
  destruct (m w) as [[a|e] w1]; simpl in *; [exact Hm|].
  now rewrite Hh.
Qed.

Create HintDb silent.
#[local] Hint Resolve silent_ret silent_throw silent_liftOutcome silent_notify
  silent_newUUID silent_now : silent.

Ltac silence :=
  repeat first
    [ solve [auto with silent]
    | apply silent_bind; [|intros ?]
    | apply silent_tryCatch; [|intros ?] ].

Lemma silent_readStream (lines : list StreamLine) (fullContent : string) :
  silent (readStream lines fullContent).
Proof.
  revert fullContent.
  induction lines as [|l lines IH]; intros fullContent; simpl.
  - silence.
  - destruct (truthy_str (fragment l)); [|apply IH].
    apply silent_bind; [silence | intros _; apply IH].
Qed.

Lemma silent_executeTool (t : Tool) (args : JsValue) :
  silent (executeTool t args).
Proof. unfold executeTool. destruct (runCode (code t) args); silence. Qed.

Lemma silent_resolveToolCall tools onToolCall onToolResult toolCall history :
  silent (resolveToolCall tools onToolCall onToolResult toolCall history).
Proof.
  unfold resolveToolCall.
  apply silent_bind; [silence | intros _].
  apply silent_tryCatch; [|intros e; silence].
  apply silent_bind.
  - destruct (find _ tools); silence.
  - intros t. apply silent_bind; [apply silent_executeTool | intros r; silence].
Qed.

Lemma silent_executeTools tools onToolCall onToolResult calls history :
  silent (executeTools tools onToolCall onToolResult calls history).
Proof.
  revert history.
  induction calls as [|tc calls IH]; intros history; simpl; [silence|].
  apply silent_bind; [apply silent_resolveToolCall | intros h; apply IH].
Qed.

Lemma silent_googleParts parts content toolCalls :
  silent (googleParts parts content toolCalls).
Proof.
  revert content toolCalls.
  induction parts as [|part parts IH]; intros content toolCalls; simpl;
    [silence|].
  destruct (truthy_str (partText part)); [apply IH|].
  destruct (functionCall part) as [[n a]|]; [|apply IH].
  apply silent_bind; [silence | intros i; apply IH].
Qed.

Lemma silent_googleParse (data : ResponseData) : silent (googleParse data).
Proof.
  unfold googleParse. apply silent_bind; [|intros; silence].
  destruct (candidateParts data); [apply silent_googleParts | silence].
Qed.

#[local] Hint Resolve silent_readStream silent_executeTool
  silent_resolveToolCall silent_executeTools silent_googleParts
  silent_googleParse : silent.

(** *** Computations that append to the request log *)

Lemma appends_weaken {A} (P : Request -> Prop) (n n' : nat) (m : M A) :
  appends P n m -> n <= n' -> appends P n' m.
Proof.
  intros H Hn w. destruct (H w) as (new & He & Hf & Hl).
  exists new. repeat split; auto. lia.
Qed.

Lemma silent_appends {A} (P : Request -> Prop) (n : nat) (m : M A) :
  silent m -> appends P n m.
Proof.
  intros H w. exists []. rewrite H, app_nil_r.
  repeat split; auto. simpl; lia.
Qed.

Lemma appends_bind {A B} P (n1 n2 : nat) (m : M A) (k : A -> M B) :
  appends P n1 m -> (forall a, appends P n2 (k a)) ->
  appends P (n1 + n2) (bind m k).
Proof.
  intros Hm Hk w. unfold bind.
  destruct (Hm w) as (new1 & E1 & F1 & L1).
  destruct (m w) as [[a|e] w1]; simpl in *.
  - destruct (Hk a w1) as (new2 & E2 & F2 & L2).
    exists (new1 ++ new2)%list. rewrite E2, E1, app_assoc.
    repeat split; auto.
    + apply Forall_app; auto.
    + rewrite length_app. lia.
  - exists new1. repeat split; auto. lia.
Qed.

(** *** The adapters, uniformly *)

(** Every adapter is its credential guard, then either the tool round
    around its [makeApiCall] or (the local adapter without tools to send)
    one plain [makeApiCall]. *)
Lemma callProvider_cases p messages config tools onChunk onToolCall onToolResult :
  callProvider p messages config tools onChunk onToolCall onToolResult
  = if negb (hasCredential p config) then throw (keyRequired p)
    else if runsToolRound p config tools
         then withToolRound (makeApiCallOf p messages config tools onChunk)
                tools (notifies p onToolCall) (notifies p onToolResult)
                messages
         else makeApiCallOf p messages config tools onChunk messages.
Proof.
  destruct p; simpl;
    unfold callOpenAI, callAnthropic, callGoogle, callOllama;
    try (destruct (truthy_str (apiKey config)); reflexivity).
  destruct (ollamaSupportsTools config tools); reflexivity.
Qed.

Lemma bind_liftOutcome_ok {A B} (a : A) (k : A -> M B) :
  bind (liftOutcome (Ok a)) k = k a.
Proof. reflexivity. Qed.

(** After the response has arrived, a [makeApiCall] issues nothing more. *)
Lemma silent_after_fetch (failure : Response -> string)
    (streaming : bool) (usageOf : list StreamLine -> option TokenUsage)
    (parse : ResponseData -> M ApiResult) (response : Response) :
  (forall data, silent (parse data)) ->
  silent
    (if negb (ok response)
     then throw (failure response)
     else
       match (if streaming then body response else None) with
       | Some lines =>
           bind (readStream lines EmptyString)
                (fun fullContent =>
                   ret (mkApiResult
                          (strOr (Some fullContent) "No response received")
                          (usageOf lines) None))
       | None => parse (json response)
       end).
Proof.
  intros Hparse.
  destruct (negb (ok response)); [silence|].
  destruct (if streaming then body response else None); [silence | apply Hparse].
Qed.

Lemma readStream_runs (lines : list StreamLine) (fullContent : string) (w : World) :
  exists s w', readStream lines fullContent w = (Ok s, w').
Proof.
  revert fullContent w.
  induction lines as [|l lines IH]; intros fullContent w; simpl.
  - unfold ret. eauto.
  - destruct (truthy_str (fragment l)); [|apply IH].
    unfold bind, notify. apply IH.
Qed.

Lemma googleParts_runs parts content toolCalls (w : World) :
  exists r w', googleParts parts content toolCalls w = (Ok r, w').
Proof.
  revert content toolCalls w.
  induction parts as [|part parts IH]; intros content toolCalls w; simpl.
  - unfold ret. eauto.
  - destruct (truthy_str (partText part)); [apply IH|].
    destruct (functionCall part) as [[n a]|]; [|apply IH].
    unfold bind, newUUID. apply IH.
Qed.

Lemma after_fetch_resolves (failure : Response -> string)
    (streaming : bool) (usageOf : list StreamLine -> option TokenUsage)
    (parse : ResponseData -> M ApiResult) (response : Response) (w : World) :
  ok response = true ->
  (forall data w0, exists r w', parse data w0 = (Ok r, w')) ->
  exists r w',
    (if negb (ok response)
     then throw (failure response)
     else
       match (if streaming then body response else None) with
       | Some lines =>
           bind (readStream lines EmptyString)
                (fun fullContent =>
                   ret (mkApiResult
                          (strOr (Some fullContent) "No response received")
                          (usageOf lines) None))
       | None => parse (json response)
       end) w = (Ok r, w').
Proof.
  intros Hok Hparse. rewrite Hok. simpl.
  destruct (if streaming then body response else None) as [lines|];
    [|apply Hparse].
  unfold bind.
  destruct (readStream_runs lines EmptyString w) as (s & w' & ->).
  unfold ret. eauto.
Qed.

Lemma fetch_then_log {A} (req : Request) (k : Response -> M A) (w : World) :
  (forall response, silent (k response)) ->
  requests (snd (bind (doFetch req) k w)) = (requests w ++ [req])%list.
Proof.
  intros Hk. unfold bind, doFetch. now rewrite Hk.
Qed.

(** One [makeApiCall] issues exactly the request it builds, and resolves
    whenever the response to it is a success. *)
Lemma makeApiCallOf_runs p messages config tools onChunk messagesToSend req
    (w : World) :
  requestOf p messages config tools onChunk messagesToSend = Some req ->
  requests (snd (makeApiCallOf p messages config tools onChunk
                               messagesToSend w))
  = (requests w ++ [req])%list
  /\ (ok (fetch (length (requests w)) req) = true ->
      exists r w',
        makeApiCallOf p messages config tools onChunk messagesToSend w
        = (Ok r, w')).
Proof.
  intros Hreq. destruct p; simpl in *.
  - injection Hreq as <-. split.
    + apply fetch_then_log. intros response.
      apply (silent_after_fetch
               (fun r => "OpenAI API error: "
                         ++ strOr (errorMessage r) "Unknown error")%string
               _ (fun _ => None) (fun d => ret (openaiParse d))).
      intros; silence.
    + intros Hok.
      apply (after_fetch_resolves
               (fun r => "OpenAI API error: "
                         ++ strOr (errorMessage r) "Unknown error")%string
               _ (fun _ => None) (fun d => ret (openaiParse d)) _ _ Hok).
      intros; unfold ret; eauto.
  - injection Hreq as <-. split.
    + apply fetch_then_log. intros response.
      apply (silent_after_fetch
               (fun r => "Anthropic API error: "
                         ++ strOr (errorMessage r) "Unknown error")%string
               _ (fun _ => None) (fun d => ret (anthropicParse d))).
      intros; silence.
    + intros Hok.
      apply (after_fetch_resolves
               (fun r => "Anthropic API error: "
                         ++ strOr (errorMessage r) "Unknown error")%string
               _ (fun _ => None) (fun d => ret (anthropicParse d)) _ _ Hok).
      intros; unfold ret; eauto.
  - unfold googleMakeApiCall.
    destruct (googleContents messagesToSend (filter notSystem messagesToSend))
      as [contents|e]; [|discriminate].
    injection Hreq as <-. rewrite bind_liftOutcome_ok. split.
    + apply fetch_then_log. intros response.
      apply (silent_after_fetch
               (fun r => "Google API error: "
                         ++ strOr (errorMessage r) "Unknown error")%string
               _ (fun _ => None) googleParse).
      apply silent_googleParse.
    + intros Hok.
      apply (after_fetch_resolves
               (fun r => "Google API error: "
                         ++ strOr (errorMessage r) "Unknown error")%string
               _ (fun _ => None) googleParse _ _ Hok).
      intros data w0. unfold googleParse, bind.
      destruct (candidateParts data) as [parts|].
      * destruct (googleParts_runs parts EmptyString [] w0) as (r & w' & ->).
        unfold ret. eauto.
      * unfold ret. eauto.
  - injection Hreq as <-. split.
    + apply fetch_then_log. intros response.
      apply (silent_after_fetch
               (fun r => "Ollama API error: " ++ statusText r)%string
               _ (fun lines => streamUsage lines None)
               (fun d => ret (ollamaParse d))).
      intros; silence.
    + intros Hok.
      apply (after_fetch_resolves
               (fun r => "Ollama API error: " ++ statusText r)%string
               _ (fun lines => streamUsage lines None)
               (fun d => ret (ollamaParse d)) _ _ Hok).
      intros; unfold ret; eauto.
Qed.

Lemma makeApiCallOf_appends (P : Request -> Prop) p messages config tools
    onChunk messagesToSend :
  (forall req,
      requestOf p messages config tools onChunk messagesToSend = Some req ->
      P req) ->
  appends P 1 (makeApiCallOf p messages config tools onChunk messagesToSend).
Proof.
  intros HP.
  destruct (requestOf p messages config tools onChunk messagesToSend)
    as [req|] eqn:Hreq.
  - intros w. exists [req].
    destruct (makeApiCallOf_runs p messages config tools onChunk
                messagesToSend w Hreq) as [Hlog _].
    repeat split; auto.
  - apply silent_appends. destruct p; try discriminate. simpl in *.
    unfold googleMakeApiCall.
    destruct (googleContents messagesToSend (filter notSystem messagesToSend));
      [discriminate|].
    intros w. reflexivity.
Qed.

(** *** The transport of a call with tools *)

Lemma withToolRound_appends (P : Request -> Prop)
    (makeApiCall : list Message -> M ApiResult) tools onToolCall onToolResult
    messages :
  (forall messagesToSend, appends P 1 (makeApiCall messagesToSend)) ->
  appends P 2
    (withToolRound makeApiCall tools onToolCall onToolResult messages).
Proof.
  intros Hmk. unfold withToolRound.
  apply (appends_bind (n1 := 1) (n2 := 1)); [apply Hmk | intros initial].
  destruct (resToolCalls initial) as [[|tc calls]|];
    [apply silent_appends; silence| |apply silent_appends; silence].
  apply (appends_bind (n1 := 0) (n2 := 1));
    [apply silent_appends; silence | intros i].
  apply (appends_bind (n1 := 0) (n2 := 1));
    [apply silent_appends; silence | intros history].
  apply (appends_bind (n1 := 1) (n2 := 0));
    [apply Hmk | intros final; apply silent_appends; silence].
Qed.

Lemma callProvider_appends (P : Request -> Prop) p messages config tools
    onChunk onToolCall onToolResult :
  (forall messagesToSend req,
      requestOf p messages config tools onChunk messagesToSend = Some req ->
      P req) ->
  appends P 2
    (callProvider p messages config tools onChunk onToolCall onToolResult).
Proof.
  intros HP. rewrite callProvider_cases.
  destruct (negb (hasCredential p config)); [apply silent_appends; silence|].
  destruct (runsToolRound p config tools).
  - apply withToolRound_appends. intros messagesToSend.
    apply makeApiCallOf_appends. apply HP.
  - apply appends_weaken with (n := 1); [|lia].
    apply makeApiCallOf_appends. apply HP.
Qed.

(** With tools to send, the request an adapter builds is on the buffered
    transport. *)
Lemma requestOf_buffered p messages config tools onChunk messagesToSend req :
  tools <> [] ->
  runsToolRound p config tools = true ->
  requestOf p messages config tools onChunk messagesToSend = Some req ->
  buffered p config req.
Proof.
  intros Htools Hround H.
  apply isEmpty_false in Htools.
  destruct p; simpl in *.
  - injection H as <-. simpl.
    unfold declarations. now rewrite isEmpty_map, Htools, andb_false_r.
  - injection H as <-. simpl.
    unfold declarations. now rewrite isEmpty_map, Htools, andb_false_r.
  - destruct (googleContents _ _); [|discriminate].
    injection H as <-. simpl. now rewrite Htools, andb_false_r.
  - injection H as <-. simpl. now rewrite Hround.
Qed.

(** C1 (as amended).  With a non-empty tools list, every request the
    OpenAI, Anthropic and Google adapters issue is on the buffered
    transport: [stream] is false in the body, or the [generateContent]
    endpoint is addressed.  The Ollama adapter does so when the tools are
    actually sent, that is when the registry entry of the model declares tool
    support.  For an Ollama model whose entry declares no tool support, or
    which has no entry, the tools are dropped: the call issues one request,
    without a tools field, and that request streams exactly when [onChunk]
    is supplied. *)
Theorem tools_use_buffered_transport
    (p : LLMProvider) (messages : list Message) (config : LLMConfig)
    (tools : list Tool) (onChunk onToolCall onToolResult : bool) (w : World) :
  tools <> [] ->
  ((p = ollama -> ollamaSupportsTools config tools = true) ->
   exists new,
     requests (snd (callProvider p messages config tools
                                 onChunk onToolCall onToolResult w))
     = (requests w ++ new)%list
     /\ Forall (buffered p config) new)
  /\ (p = ollama ->
      (forall modelInfo,
          getModelInfo (model config) = Some modelInfo ->
          supportsTools modelInfo = false) ->
      exists req,
        requests (snd (callProvider p messages config tools
                                    onChunk onToolCall onToolResult w))
        = (requests w ++ [req])%list
        /\ bodyTools req = None
        /\ stream req = Some onChunk).
Proof.
  intros Htools. split.
  - intros Hollama.
    assert (runsToolRound p config tools = true) as Hround
      by (destruct p; auto).
    destruct (callProvider_appends (buffered p config) p messages config tools
                onChunk onToolCall onToolResult) with (w := w)
      as (new & He & Hf & _).
    + intros messagesToSend req. now apply requestOf_buffered.
    + eauto.
  - intros -> Hentry.
    assert (ollamaSupportsTools config tools = false) as Hno.
    { unfold ollamaSupportsTools.
      destruct (getModelInfo (model config)) as [modelInfo|]; [|reflexivity].
      now rewrite (Hentry modelInfo eq_refl). }
    exists (ollamaRequest config tools onChunk messages).
    rewrite callProvider_cases.
    change (hasCredential ollama config) with true.
    change (runsToolRound ollama config tools)
      with (ollamaSupportsTools config tools).
    rewrite Hno. cbn [negb].
    split.
    + apply (makeApiCallOf_runs ollama messages config tools onChunk messages
               w eq_refl).
    + unfold ollamaRequest. cbn [bodyTools stream]. now rewrite Hno.
Qed.

(** *** The tool round *)

(** Resolving one tool call never throws: it pushes exactly one message, the
    serialized result or the error text. *)
Lemma resolveToolCall_spec tools onToolCall onToolResult toolCall history
    (w : World) :
  exists msg w',
    resolveToolCall tools onToolCall onToolResult toolCall history w
    = (Ok (history ++ [msg])%list, w')
    /\ answersCall tools toolCall msg.
Proof.
  unfold resolveToolCall, answersCall, toolMessageContent, named.
  unfold bind, tryCatch, executeTool.
  destruct (notify onToolCall (ToolCallIssued toolCall) w) as [[[]|e] w1] eqn:Hn;
    [|unfold notify in Hn; destruct onToolCall; discriminate].
  destruct (find _ tools) as [t|]; simpl.
  - destruct (runCode (code t) (arguments toolCall)); simpl;
      unfold notify; destruct onToolResult; simpl;
      eexists; eexists; (split; [reflexivity|]); simpl; auto.
  - unfold notify; destruct onToolResult; simpl;
      eexists; eexists; (split; [reflexivity|]); simpl; auto.
Qed.

Lemma executeTools_spec tools onToolCall onToolResult calls history (w : World) :
  exists toolMessages w',
    executeTools tools onToolCall onToolResult calls history w
    = (Ok (history ++ toolMessages)%list, w')
    /\ requests w' = requests w
    /\ Forall2 (answersCall tools) calls toolMessages.
Proof.
  revert history w.
  induction calls as [|tc calls IH]; intros history w; simpl.
  - exists [], w. rewrite app_nil_r. repeat split; auto.
  - unfold bind.
    destruct (resolveToolCall_spec tools onToolCall onToolResult tc history w)
      as (msg & w1 & Hr & Hmsg).
    pose proof (silent_resolveToolCall tools onToolCall onToolResult tc
                  history w) as Hs.
    rewrite Hr in *. simpl in Hs.
    destruct (IH (history ++ [msg])%list w1) as (rest & w2 & He & Hq & Hall).
    exists (msg :: rest), w2. rewrite He, <- app_assoc. simpl.
    repeat split; auto. congruence.
Qed.

(** The assistant message the tool round pushes first. *)
Lemma withToolRound_run
    (makeApiCall : list Message -> M ApiResult) tools onToolCall onToolResult
    messages (w : World) :
  match makeApiCall messages w with
  | (Err e, w1) =>
      withToolRound makeApiCall tools onToolCall onToolResult messages w
      = (Err e, w1)
  | (Ok initial, w1) =>
      match resToolCalls initial with
      | Some (tc :: rest) =>
          exists assistantMessage toolMessages w2,
            let history :=
              (messages ++ assistantMessage :: toolMessages)%list in
            assistantMessage
            = mkMessage (randomUUID (uuids w1)) assistant (resContent initial)
                        (Some (tc :: rest)) None
            /\ Forall2 (answersCall tools) (tc :: rest) toolMessages
            /\ requests w2 = requests w1
            /\ withToolRound makeApiCall tools onToolCall onToolResult
                             messages w
               = match makeApiCall history w2 with
                 | (Ok final, w3) =>
                     (Ok (mkApiResult (resContent final)
                            (combinedTokenUsage (resTokenUsage initial)
                                                (resTokenUsage final))
                            (Some (tc :: rest))), w3)
                 | (Err e, w3) => (Err e, w3)
                 end
      | _ =>
          withToolRound makeApiCall tools onToolCall onToolResult messages w
          = (Ok initial, w1)
      end
  end.
Proof.
  unfold withToolRound, bind.
  destruct (makeApiCall messages w) as [[initial|e] w1]; [|reflexivity].
  destruct (resToolCalls initial) as [[|tc rest]|]; try reflexivity.
  unfold newUUID at 1. cbv beta iota.
  set (w1' := mkWorld (requests w1) (events w1) (S (uuids w1))).
  set (assistantMessage := mkMessage _ assistant _ _ _).
  destruct (executeTools_spec tools onToolCall onToolResult (tc :: rest)
              (messages ++ [assistantMessage])%list w1')
    as (toolMessages & w2 & He & Hq & Hall).
  exists assistantMessage, toolMessages, w2. cbv zeta.
  split; [reflexivity|]. split; [exact Hall|]. split; [exact Hq|].
  rewrite He, <- app_assoc.
  change ([assistantMessage] ++ toolMessages)%list
    with (assistantMessage :: toolMessages).
  destruct (makeApiCall _ w2) as [[final|e] w3]; reflexivity.
Qed.

(** An adapter that passes its guard issues the request for the caller's
    history first. *)
Lemma callProvider_first_request p messages config tools onChunk onToolCall
    onToolResult req (w : World) :
  hasCredential p config = true ->
  requestOf p messages config tools onChunk messages = Some req ->
  exists rest,
    requests (snd (callProvider p messages config tools
                                onChunk onToolCall onToolResult w))
    = (requests w ++ req :: rest)%list.
Proof.
  intros Hcred Hreq. rewrite callProvider_cases, Hcred. simpl.
  destruct (makeApiCallOf_runs p messages config tools onChunk messages w Hreq)
    as [Hlog _].
  destruct (runsToolRound p config tools);
    [|exists []; exact Hlog].
  pose proof (withToolRound_run (makeApiCallOf p messages config tools onChunk)
                tools (notifies p onToolCall) (notifies p onToolResult)
                messages w) as Hrun.
  destruct (makeApiCallOf p messages config tools onChunk messages w)
    as [[initial|e] w1]; simpl in Hlog;
    [|exists []; now rewrite Hrun].
  destruct (resToolCalls initial) as [[|tc calls]|];
    try (exists []; now rewrite Hrun).
  destruct Hrun as (am & tms & w2 & _ & _ & Hq & ->).
  destruct (makeApiCallOf_appends (fun _ => True) p messages config tools
              onChunk (messages ++ am :: tms)%list) with (w := w2)
    as (new & He & _); [auto|].
  exists new.
  destruct (makeApiCallOf p messages config tools onChunk _ w2)
    as [[final|e] w3]; simpl in *;
    rewrite He, Hq, Hlog, <- app_assoc; reflexivity.
Qed.

(** C3 (as amended).  A cloud adapter called without an [apiKey] fails with
    its "API key is required" error and leaves the world as it was: no
    request is issued.  The Ollama adapter has no such guard: without a
    [baseUrl] it addresses "http://localhost:11434" and issues its
    request. *)
Theorem missing_credential
    (p : LLMProvider) (messages : list Message) (config : LLMConfig)
    (tools : list Tool) (onChunk onToolCall onToolResult : bool) (w : World) :
  truthy_str (requiredCredential p config) = false ->
  match p with
  | ollama =>
      exists rest,
        requests (snd (callProvider p messages config tools
                                    onChunk onToolCall onToolResult w))
        = (requests w ++ ollamaRequest config tools onChunk messages :: rest)%list
        /\ url (ollamaRequest config tools onChunk messages)
           = "http://localhost:11434/api/chat"%string
  | _ =>
      callProvider p messages config tools onChunk onToolCall onToolResult w
      = (Err (keyRequired p), w)
  end.
Proof.
  intros H. destruct p; simpl in H;
    try (rewrite callProvider_cases; simpl; rewrite H; reflexivity).
  destruct (callProvider_first_request ollama messages config tools onChunk
              onToolCall onToolResult
              (req := ollamaRequest config tools onChunk messages) w)
    as (rest & Hrest); try reflexivity.
  exists rest. split; [exact Hrest|].
  simpl. unfold ollamaBaseUrl. now rewrite (strOr_falsy _ _ H).
Qed.

Lemma Forall2_In_left {A B} (R : A -> B -> Prop) (l : list A) (l' : list B)
    (a : A) :
  Forall2 R l l' -> In a l -> exists b, In b l' /\ R a b.
Proof.
  induction 1 as [|x y l l' Hxy _ IH]; simpl; [contradiction|].
  intros [<-|Hin]; [eauto|].
  destruct (IH Hin) as (b & Hb & Hr). eauto.
Qed.

(** C2 (as amended).  In the tool round of the OpenAI, Anthropic and Ollama
    adapters, a tool whose code body throws does not abort the call: a
    [tool]-role message that references the id of the tool call, with
    content "Error: Tool execution failed: " followed by the thrown message
    ("Unknown error" when the thrown value is not an [Error]), is on the
    working history; the adapter issues one more request, built from that
    history; and the call resolves whenever the response to that request is
    a success. *)
Theorem tool_failure_is_fed_back
    (p : LLMProvider) (messages : list Message) (config : LLMConfig)
    (tools : list Tool) (onChunk onToolCall onToolResult : bool)
    (w w1 : World) (initial : ApiResult) (calls : list ToolCall)
    (toolCall : ToolCall) (t : Tool) (m : string) :
  p <> google ->
  hasCredential p config = true ->
  runsToolRound p config tools = true ->
  makeApiCallOf p messages config tools onChunk messages w = (Ok initial, w1) ->
  resToolCalls initial = Some calls ->
  In toolCall calls ->
  find (named toolCall) tools = Some t ->
  thrownMessage (runCode (code t) (arguments toolCall)) = Some m ->
  exists history req,
    (exists i,
        In (mkMessage i tool ("Error: Tool execution failed: " ++ m) None
                      (Some (callId toolCall)))
           history)
    /\ requestOf p messages config tools onChunk history = Some req
    /\ requests (snd (callProvider p messages config tools
                                   onChunk onToolCall onToolResult w))
       = (requests w1 ++ [req])%list
    /\ (ok (fetch (length (requests w1)) req) = true ->
        exists r w',
          callProvider p messages config tools onChunk onToolCall
                       onToolResult w = (Ok r, w')
          /\ resToolCalls r = Some calls).
Proof.
  intros Hp Hcred Hround Hinit Hcalls Hin Hfind Hthrown.
  rewrite callProvider_cases, Hcred, Hround. simpl.
  pose proof (withToolRound_run (makeApiCallOf p messages config tools onChunk)
                tools (notifies p onToolCall) (notifies p onToolResult)
                messages w) as Hrun.
  rewrite Hinit, Hcalls in Hrun.
  destruct calls as [|tc rest]; [contradiction|].
  destruct Hrun as (am & tms & w2 & _ & Hall & Hq & Hrun).
  destruct (@Forall2_In_left _ _ _ _ _ toolCall Hall Hin) as (msg & Hmsg & Hr & Hid & Htc & Hc).
  set (history := (messages ++ am :: tms)%list) in *.
  assert (exists req,
             requestOf p messages config tools onChunk history = Some req)
    as (req & Hreq) by (destruct p; simpl; eauto; congruence).
  destruct (makeApiCallOf_runs p messages config tools onChunk history w2 Hreq)
    as [Hlog Hok].
  exists history, req. repeat split.
  - exists (msgId msg). subst history. apply in_or_app. right. right.
    replace (mkMessage _ _ _ _ _) with msg; [exact Hmsg|].
    destruct msg as [i r c tcs tid]. simpl in *. subst r tcs tid c.
    unfold toolMessageContent. rewrite Hfind.
    destruct (runCode (code t) (arguments toolCall)); simpl in Hthrown;
      try discriminate; injection Hthrown as <-; reflexivity.
  - exact Hreq.
  - rewrite Hrun.
    destruct (makeApiCallOf p messages config tools onChunk history w2)
      as [[final|e] w3]; simpl in *; now rewrite Hlog, Hq.
  - intros Hresp. rewrite <- Hq in Hresp.
    destruct (Hok Hresp) as (final & w3 & Hfinal).
    rewrite Hrun, Hfinal. eauto.
Qed.

(** C5.  When a call performs the tool round, that is when it issues two
    requests, the usage it returns is the field-wise sum of the usage of the
    two rounds; the usage of the one round that reports it when only one
    does; and absent when neither does. *)
Theorem tool_round_usage
    (p : LLMProvider) (messages : list Message) (config : LLMConfig)
    (tools : list Tool) (onChunk onToolCall onToolResult : bool)
    (w w' : World) (r : ApiResult) :
  callProvider p messages config tools onChunk onToolCall onToolResult w
  = (Ok r, w') ->
  length (requests w') = length (requests w) + 2 ->
  exists initial w1 history w2 final,
    makeApiCallOf p messages config tools onChunk messages w = (Ok initial, w1)
    /\ makeApiCallOf p messages config tools onChunk history w2 = (Ok final, w')
    /\ resTokenUsage r
       = match resTokenUsage initial, resTokenUsage final with
         | Some a, Some b =>
             Some (mkTokenUsage (inputTokens a + inputTokens b)
                                (outputTokens a + outputTokens b)
                                (totalTokens a + totalTokens b))
         | Some a, None => Some a
         | None, Some b => Some b
         | None, None => None
         end.
Proof.
  intros Hcall Hlen. rewrite callProvider_cases in Hcall.
  destruct (negb (hasCredential p config)); [discriminate|].
  assert (forall messagesToSend w0 out w0',
             makeApiCallOf p messages config tools onChunk messagesToSend w0
             = (out, w0') ->
             length (requests w0') <= length (requests w0) + 1) as Hone.
  { intros messagesToSend w0 out w0' H0.
    destruct (makeApiCallOf_appends (fun _ => True) p messages config tools
                onChunk messagesToSend) with (w := w0)
      as (new & He & _ & Hl); [auto|].
    rewrite H0 in He. simpl in He. rewrite He, length_app. lia. }
  destruct (runsToolRound p config tools).
  - pose proof (withToolRound_run
                  (makeApiCallOf p messages config tools onChunk)
                  tools (notifies p onToolCall) (notifies p onToolResult)
                  messages w) as Hrun.
    destruct (makeApiCallOf p messages config tools onChunk messages w)
      as [[initial|e] w1] eqn:Hinit; [|congruence].
    assert (forall x, (Ok initial, w1) = (Ok x, w') -> False) as Hshort.
    { intros x [= <- <-]. apply Hone in Hinit. lia. }
    destruct (resToolCalls initial) as [[|tc rest]|];
      try (rewrite Hrun in Hcall; now apply Hshort in Hcall).
    destruct Hrun as (am & tms & w2 & _ & _ & _ & Hrun).
    rewrite Hrun in Hcall.
    destruct (makeApiCallOf p messages config tools onChunk
                (messages ++ am :: tms)%list w2)
      as [[final|e] w3] eqn:Hfinal; [|discriminate].
    injection Hcall as <- <-.
    exists initial, w1, (messages ++ am :: tms)%list, w2, final.
    repeat split; auto. simpl.
    destruct (resTokenUsage initial), (resTokenUsage final); reflexivity.
  - apply Hone in Hcall. lia.
Qed.

(** *** Token usage *)








(** *** The facade *)

(** [providerConfig?.apiKey] and [providerConfig?.baseUrl] *)
Lemma createApiCall_requests messages config tools onChunk onToolCall
    onToolResult p (w : World) :
  getProviderForModel (model config) = Some p ->
  requests (snd (createApiCall messages config tools onChunk onToolCall
                               onToolResult w))
  = requests (snd (callProvider p messages
                     (mergedConfig config (getProviderConfigs p)) tools
                     onChunk onToolCall onToolResult w)).
Proof.
  intros Hp. unfold createApiCall. rewrite Hp.
  unfold bind at 1. unfold now at 1. cbv beta iota.
  unfold bind at 1.
  destruct (callProvider p messages _ tools onChunk onToolCall onToolResult w)
    as [[result|e] w1]; reflexivity.
Qed.

(** C7 (as amended).  [createApiCall] runs the adapter of the resolved
    provider on the merged configuration.  A non-empty [apiKey] (or
    [baseUrl]) stored for that provider replaces the one of the given
    configuration; where the store holds none for the provider, or an empty
    one, the value of the given configuration is kept as it is.  The other
    fields are those of the given configuration. *)
Theorem stored_credentials_take_precedence
    (messages : list Message) (config : LLMConfig) (tools : list Tool)
    (onChunk onToolCall onToolResult : bool) (w : World) (p : LLMProvider) :
  getProviderForModel (model config) = Some p ->
  let stored field :=
    match getProviderConfigs p with
    | Some providerConfig => field providerConfig
    | None => None
    end in
  let merged := mergedConfig config (getProviderConfigs p) in
  requests (snd (createApiCall messages config tools onChunk onToolCall
                               onToolResult w))
  = requests (snd (callProvider p messages merged tools onChunk onToolCall
                                onToolResult w))
  /\ (truthy_str (stored storedApiKey) = true ->
      apiKey merged = stored storedApiKey)
  /\ (truthy_str (stored storedApiKey) = false ->
      apiKey merged = apiKey config)
  /\ (truthy_str (stored storedBaseUrl) = true ->
      baseUrl merged = stored storedBaseUrl)
  /\ (truthy_str (stored storedBaseUrl) = false ->
      baseUrl merged = baseUrl config)
  /\ model merged = model config
  /\ temperature merged = temperature config
  /\ maxTokens merged = maxTokens config.
Proof.
  intros Hp stored merged. split.
  - now apply createApiCall_requests.
  - subst stored merged. unfold mergedConfig. simpl.
    repeat split; intros H; rewrite H; reflexivity.
Qed.

End WithEnv.
End CallFacts.

(* ================================================================== *)
(** ** The scenarios, evaluated *)

Module ScenarioFacts.
Import Types CostCalculator Data Utils Statements Scenario CallFacts.
#[local] Close Scope Q_scope.
#[local] Open Scope Z_scope.

(** Gemma 3 declares tool support: with a tool to send, both requests of the
    local adapter are buffered. *)
Lemma gemma_with_tools_is_buffered :
  exists new,
    requests (snd (callProvider (E := demoEnv 11) ollama [question] gemma
                                [lookupTool] true true true emptyWorld))
    = (requests emptyWorld ++ new)%list
    /\ Forall (buffered ollama gemma) new.
Proof.
  destruct (@tools_use_buffered_transport (demoEnv 11) ollama [question]
              gemma [lookupTool] true true true emptyWorld) as [Hbuffered _].
  - discriminate.
  - apply Hbuffered. reflexivity.
Defined.

(** C1 fails for the local adapter: Llama 3.2 declares no tool support, so
    with a non-empty tools list and [onChunk] supplied the request goes out
    with [stream: true]. *)
Lemma llama_with_tools_streams :
  [lookupTool] <> []
  /\ map stream
         (requests (snd (callProvider (E := demoEnv 11) ollama [question] llama
                                      [lookupTool] true true true emptyWorld)))
     = [Some true]
  /\ ~ Forall (buffered ollama llama)
         (requests (snd (callProvider (E := demoEnv 11) ollama [question] llama
                                      [lookupTool] true true true emptyWorld))).
Proof.
  split; [discriminate|]. split; [reflexivity|].
  intros H. inversion H as [|r rs Hr _]. discriminate Hr.
Qed.

(** "mistral" has no registry entry: the local adapter drops the tools and
    streams as well. *)
Example unregistered_model_with_tools_streams :
  getModelInfo "mistral" = None
  /\ map (fun req => (stream req, bodyTools req))
         (requests (snd (callProvider (E := demoEnv 11) ollama [question]
                           (configFor "mistral" None None)
                           [lookupTool] true true true emptyWorld)))
     = [(Some true, None)].
Proof. split; reflexivity. Qed.

(** The tool body throws "network down"; the OpenAI adapter feeds the error
    back and completes. *)
Lemma broken_tool_is_fed_back :
  exists history req,
    (exists i,
        In (mkMessage i tool "Error: Tool execution failed: network down" None
                      (Some "call_1"))
           history)
    /\ requestOf (E := demoEnv 11) openai [question] gpt [brokenTool] false
                 history = Some req
    /\ requests (snd (callProvider (E := demoEnv 11) openai [question] gpt
                                   [brokenTool] false true true emptyWorld))
       = (requests (snd (makeApiCallOf (E := demoEnv 11) openai [question] gpt
                           [brokenTool] false [question] emptyWorld))
          ++ [req])%list
    /\ (ok (fetch (Env := demoEnv 11) 1 req) = true ->
        exists r w',
          callProvider (E := demoEnv 11) openai [question] gpt [brokenTool]
                       false true true emptyWorld = (Ok r, w')
          /\ resToolCalls r = Some [lookupParis]).
Proof.
  apply (@tool_failure_is_fed_back (demoEnv 11) openai [question]
           gpt [brokenTool] false true true
           emptyWorld
           (snd (makeApiCallOf (E := demoEnv 11) openai [question] gpt
                   [brokenTool] false [question] emptyWorld))
           (resultOf noResult
              (makeApiCallOf (E := demoEnv 11) openai [question] gpt
                 [brokenTool] false [question] emptyWorld))
           [lookupParis] lookupParis brokenTool "network down").
  - discriminate.
  - reflexivity.
  - reflexivity.
  - reflexivity.
  - reflexivity.
  - simpl; auto.
  - reflexivity.
  - reflexivity.
Defined.

(** C2 fails in the text of the message: the tool message the second request
    carries reads "Error: Tool execution failed: network down", not
    "Error: network down". *)
Lemma broken_tool_message_text :
  runCode (Env := demoEnv 11) (code brokenTool) parisArgs
  = ThrowsError "network down"
  /\ map toolTexts
         (requests (snd (callProvider (E := demoEnv 11) openai [question] gpt
                                      [brokenTool] false true true emptyWorld)))
     = [[]; [Plain "Error: Tool execution failed: network down"]]
  /\ ~ In (Plain "Error: network down")
          (concat
             (map toolTexts
                (requests (snd (callProvider (E := demoEnv 11) openai
                                  [question] gpt [brokenTool] false true true
                                  emptyWorld))))).
Proof.
  split; [reflexivity|]. split; [reflexivity|].
  simpl. intros [H|[]]. discriminate H.
Qed.

(** The same failing tool under the Google adapter: building the second
    request body applies [JSON.parse] to the error text, which throws, and
    the call is rejected after one request. *)
Example google_tool_error_aborts :
  fst (callProvider (E := demoEnv 11) google [question]
         gemini [brokenTool] false true true emptyWorld)
  = Err "Unexpected token E in JSON at position 0"
  /\ length (requests (snd (callProvider (E := demoEnv 11) google [question]
                              gemini [brokenTool] false true true
                              emptyWorld)))
     = 1%nat.
Proof. split; reflexivity. Qed.

(** Scenario D: no [apiKey] for a cloud provider. *)
Lemma openai_without_key_fails_first :
  callProvider (E := demoEnv 11) openai [question]
               (configFor "gpt-4o-mini" None None) [] true true true emptyWorld
  = (Err "OpenAI API key is required", emptyWorld).
Proof.
  apply (@missing_credential (demoEnv 11) openai [question]
           (configFor "gpt-4o-mini" None None) [] true true true emptyWorld).
  reflexivity.
Defined.

(** C3 fails for the local adapter: without a [baseUrl] the call is not
    rejected, it goes to the default address. *)
Lemma ollama_without_baseUrl_calls_network :
  requiredCredential ollama gemma = None
  /\ fst (callProvider (E := demoEnv 11) ollama [question] gemma [] false
                       true true emptyWorld)
     = Ok (mkApiResult "It is 20 degrees" (Some (mkTokenUsage 10 1 11)) None)
  /\ map url
         (requests (snd (callProvider (E := demoEnv 11) ollama [question] gemma
                                      [] false true true emptyWorld)))
     = ["http://localhost:11434/api/chat"%string].
Proof. repeat split. Qed.

(** A tool round under the OpenAI adapter: 20 + 10 input tokens, 5 + 1
    output tokens. *)
Lemma lookup_round_usage :
  exists initial w1 history w2 final,
    makeApiCallOf (E := demoEnv 11) openai [question] gpt [lookupTool] false
                  [question] emptyWorld = (Ok initial, w1)
    /\ makeApiCallOf (E := demoEnv 11) openai [question] gpt [lookupTool] false
                     history w2
       = (Ok final,
          snd (callProvider (E := demoEnv 11) openai [question] gpt
                 [lookupTool] false true true emptyWorld))
    /\ Some (mkTokenUsage 30 6 36)
       = match resTokenUsage initial, resTokenUsage final with
         | Some a, Some b =>
             Some (mkTokenUsage (inputTokens a + inputTokens b)
                                (outputTokens a + outputTokens b)
                                (totalTokens a + totalTokens b))
         | Some a, None => Some a
         | None, Some b => Some b
         | None, None => None
         end.
Proof.
  apply (@tool_round_usage (demoEnv 11) openai [question] gpt [lookupTool]
           false true true emptyWorld
           (snd (callProvider (E := demoEnv 11) openai [question] gpt
                   [lookupTool] false true true emptyWorld))
           (mkApiResult "It is 20 degrees" (Some (mkTokenUsage 30 6 36))
              (Some [lookupParis]))).
  - reflexivity.
  - reflexivity.
Defined.




(** The key stored for OpenAI replaces a stale one in the given
    configuration. *)
Lemma stored_openai_key_wins :
  apiKey (mergedConfig (configFor "gpt-4o-mini" (Some "sk-stale") None)
                       (getProviderConfigs (Env := demoEnv 11) openai))
  = Some "sk-openai"%string.
Proof.
  exact (proj1 (proj2
           (@stored_credentials_take_precedence (demoEnv 11) [question]
              (configFor "gpt-4o-mini" (Some "sk-stale") None) [] false true
              true emptyWorld openai eq_refl))
           eq_refl).
Defined.

(** C7 fails where the store holds nothing for the resolved provider: the
    key left over from OpenAI in the given configuration goes out in the
    [x-api-key] header of the Anthropic request. *)
Lemma leftover_key_is_sent :
  getProviderForModel (model claudeWithLeftoverKey) = Some anthropic
  /\ getProviderConfigs (Env := demoEnv 11) openai
     = Some (mkProviderConfig (Some "sk-openai"%string) None)
  /\ getProviderConfigs (Env := demoEnv 11) anthropic = None
  /\ map headers
         (requests (snd (createApiCall (E := demoEnv 11) [question]
                           claudeWithLeftoverKey [] false true true
                           emptyWorld)))
     = [[ ("Content-Type", "application/json");
          ("x-api-key", "sk-openai");
          ("anthropic-version", "2023-06-01") ]%string].
Proof. repeat split. Qed.

End ScenarioFacts.

(* ================================================================== *)
(** ** Further properties of the registry and of the cost calculator *)

Module RegistryFacts.
Import Types CostCalculator Data Utils CostFacts.

(** Every model is listed under the provider its own field names. *)
Lemma registry_provider_field (p : LLMProvider) (m : Model) :
  In m (MODELS p) -> provider m = p.
Proof.
  destruct p; simpl; intros H;
    repeat (destruct H as [<-|H]; [reflexivity|]); contradiction.
Qed.

Lemma find_hasId (modelId : string) (l : list Model) (m : Model) :
  find (hasId modelId) l = Some m -> id m = modelId /\ In m l.
Proof.
  intros H. apply find_some in H. destruct H as [Hin Hid].
  split; [|exact Hin]. now apply String.eqb_eq.
Qed.

Lemma existsb_false_find {A} (f : A -> bool) (l : list A) :
  existsb f l = false -> find f l = None.
Proof.
  induction l as [|a l IH]; simpl; [reflexivity|].
  destruct (f a); [discriminate | exact IH].
Qed.

(** The model [getModelInfo] returns is the one [calculateCost] finds in the
    list of the resolved provider. *)
Lemma resolved_firstFound (modelId : string) (p : LLMProvider)
    (ps : list LLMProvider) :
  find (fun q => existsb (hasId modelId) (MODELS q)) ps = Some p ->
  exists m,
    firstFound modelId ps = Some m
    /\ find (hasId modelId) (MODELS p) = Some m.
Proof.
  induction ps as [|a ps IH]; simpl; [discriminate|].
  destruct (existsb (hasId modelId) (MODELS a)) eqn:Hex.
  - intros [= <-]. destruct (existsb_find_some _ _ Hex) as (m & Hm).
    rewrite Hm. eauto.
  - intros H. rewrite (existsb_false_find _ _ Hex). auto.
Qed.

(** X1. The two lookups of the registry agree: the provider
    [getProviderForModel] resolves for a model id is the [provider] field of
    the model [getModelInfo] returns for it, none resolves exactly when no
    model is returned, and a returned model carries the id asked for. *)
Theorem lookups_agree (modelId : string) :
  getProviderForModel modelId = option_map provider (getModelInfo modelId)
  /\ (forall m, getModelInfo modelId = Some m -> id m = modelId).
Proof.
  unfold getModelInfo, getProviderForModel. split.
  - destruct (firstFound modelId providers) as [m|] eqn:Hm; cbn [option_map].
    + destruct (firstFound_provider _ _ Hm) as (p & Hp & Hf).
      rewrite Hp. f_equal. symmetry.
      apply registry_provider_field. now apply find_hasId in Hf.
    + destruct (find _ providers) as [p|] eqn:Hp; [|reflexivity].
      destruct (resolved_firstFound _ _ Hp) as (m & Hm' & _). congruence.
  - intros m Hm. destruct (firstFound_provider _ _ Hm) as (p & _ & Hf).
    now apply find_hasId in Hf.
Qed.

Lemma ratesCost_zero_rates (tokenUsage : TokenUsage) :
  ratesCost (mkCost 0 0) tokenUsage == 0.
Proof. unfold ratesCost. simpl. ring. Qed.

(** X2. The cost [calculateCost] returns is the usage priced at the rates
    [getModelCost] reports for the same model id, for every id: an id outside
    the registry has rates 0 and cost 0. *)
Theorem calculateCost_uses_getModelCost
    (tokenUsage : TokenUsage) (modelId : string) :
  calculateCost tokenUsage modelId
  == ratesCost (getModelCost modelId) tokenUsage.
Proof.
  unfold calculateCost, calculateCostLogged, getModelCost.
  destruct (getProviderForModel modelId) as [p|] eqn:Hp; simpl.
  - destruct (resolved_provider_has_model _ Hp) as (m & Hm).
    rewrite Hm. reflexivity.
  - symmetry. apply ratesCost_zero_rates.
Qed.

(** X4. The cost of a usage with non-negative token counts is never
    negative. *)
Theorem calculateCost_nonneg (tokenUsage : TokenUsage) (modelId : string) :
  (0 <= inputTokens tokenUsage)%Z ->
  (0 <= outputTokens tokenUsage)%Z ->
  0 <= calculateCost tokenUsage modelId.
Proof.
  intros Hin Hout.
  assert (forall rates, 0 <= input rates -> 0 <= output rates ->
                        0 <= ratesCost rates tokenUsage) as Hrates.
  { intros rates Hi Ho.
    assert (ratesCost rates (mkTokenUsage 0 0 0) == 0) as Hz
      by (unfold ratesCost; simpl; field).
    rewrite <- Hz. now apply ratesCost_le. }
  unfold calculateCost, calculateCostLogged.
  destruct (getProviderForModel modelId) as [p|]; simpl; [|apply Qle_refl].
  destruct (find (hasId modelId) (MODELS p)) as [m|] eqn:Hm; simpl.
  - apply find_some in Hm. destruct Hm as [Hm _].
    destruct (registry_rates_nonneg _ _ Hm). now apply Hrates.
  - destruct (MODELS p) as [|m rest] eqn:Hl; [apply Qle_refl|].
    assert (In m (MODELS p)) as Hi by (rewrite Hl; now left).
    destruct (registry_rates_nonneg _ _ Hi). now apply Hrates.
Qed.

Lemma calculateCost_nonneg_example :
  0 <= calculateCost (mkTokenUsage 10 1 11) "claude-3-5-haiku-20241022".
Proof.
  apply (@calculateCost_nonneg (mkTokenUsage 10 1 11)
           "claude-3-5-haiku-20241022"); simpl; lia.
Defined.

End RegistryFacts.

(* ================================================================== *)
(** ** Further properties of the facade *)

Module FacadeFacts.
Import Types CostCalculator Data Utils Statements MoreStatements CallFacts.
#[local] Close Scope Q_scope.
#[local] Open Scope nat_scope.

Section WithEnv.
Context {E : Env}.

(** [createApiCall], one provider resolved: the adapter's run, then the
    timing and the cost. *)
Lemma createApiCall_run messages config tools onChunk onToolCall onToolResult
    (w : World) :
  createApiCall messages config tools onChunk onToolCall onToolResult w
  = match getProviderForModel (model config) with
    | None => (Err ("Unknown provider for model: " ++ model config)%string, w)
    | Some p =>
        match callProvider p messages
                (mergedConfig config (getProviderConfigs p)) tools
                onChunk onToolCall onToolResult w with
        | (Ok result, w') =>
            (Ok (mkCallResult (resContent result)
                   (mkMetadata (resTokenUsage result)
                      (Date_now (length (requests w'))
                       - Date_now (length (requests w)))%Z
                      match resTokenUsage result with
                      | Some u => Some (calculateCost u (model config))
                      | None => None
                      end)
                   (resToolCalls result)), w')
        | (Err e, w') => (Err e, w')
        end
    end.
Proof.
  unfold createApiCall, bind, now.
  destruct (getProviderForModel (model config)) as [p|]; [|reflexivity].
  destruct (callProvider p messages _ tools onChunk onToolCall onToolResult w)
    as [[result|e] w']; reflexivity.
Qed.

(** X5. A model id for which no provider resolves is rejected at once: the
    call fails with "Unknown provider for model: <id>", no request is issued
    and no callback is invoked. *)
Theorem unknown_model_is_rejected
    (messages : list Message) (config : LLMConfig) (tools : list Tool)
    (onChunk onToolCall onToolResult : bool) (w : World) :
  getProviderForModel (model config) = None ->
  createApiCall messages config tools onChunk onToolCall onToolResult w
  = (Err ("Unknown provider for model: " ++ model config)%string, w).
Proof.
  intros H. rewrite createApiCall_run, H. reflexivity.
Qed.

(** X6. Through the facade, a cloud model with no usable key anywhere (none
    in the given configuration, none stored for its provider) fails with the
    adapter's "API key is required" error before any request is issued. *)
Theorem facade_missing_key
    (messages : list Message) (config : LLMConfig) (tools : list Tool)
    (onChunk onToolCall onToolResult : bool) (w : World) (p : LLMProvider) :
  getProviderForModel (model config) = Some p ->
  p <> ollama ->
  truthy_str (apiKey config) = false ->
  truthy_str (match getProviderConfigs p with
              | Some providerConfig => storedApiKey providerConfig
              | None => None
              end) = false ->
  createApiCall messages config tools onChunk onToolCall onToolResult w
  = (Err (keyRequired p), w).
Proof.
  intros Hp Hcloud Hkey Hstored.
  rewrite createApiCall_run, Hp, callProvider_cases.
  assert (hasCredential p (mergedConfig config (getProviderConfigs p)) = false)
    as ->.
  { unfold mergedConfig. destruct p; try congruence; simpl;
      rewrite Hstored; exact Hkey. }
  reflexivity.
Qed.

(** X7. What a resolved facade call returns is the adapter's result with
    timing and cost attached: content, usage and tool calls are the
    adapter's; the cost is present exactly when the usage is, and is
    [calculateCost] of that usage for the model of the given configuration;
    the time taken is the difference of the two clock readings. *)
Theorem facade_result
    (messages : list Message) (config : LLMConfig) (tools : list Tool)
    (onChunk onToolCall onToolResult : bool) (w w' : World) (r : CallResult) :
  createApiCall messages config tools onChunk onToolCall onToolResult w
  = (Ok r, w') ->
  exists p result,
    getProviderForModel (model config) = Some p
    /\ callProvider p messages (mergedConfig config (getProviderConfigs p))
                    tools onChunk onToolCall onToolResult w = (Ok result, w')
    /\ finalContent r = resContent result
    /\ issuedToolCalls r = resToolCalls result
    /\ tokenUsage (metadata r) = resTokenUsage result
    /\ metaCost (metadata r)
       = option_map (fun u => calculateCost u (model config))
                    (resTokenUsage result)
    /\ timeTaken (metadata r)
       = (Date_now (length (requests w')) - Date_now (length (requests w)))%Z.
Proof.
  rewrite createApiCall_run.
  destruct (getProviderForModel (model config)) as [p|]; [|discriminate].
  destruct (callProvider p messages _ tools onChunk onToolCall onToolResult w)
    as [[result|e] w1] eqn:Hcall; [|discriminate].
  intros [= <- <-]. exists p, result. simpl.
  repeat split; auto.
Qed.

(** X8. One facade call makes at most two model calls: the adapter issues
    at most two requests, each of them the request it builds for a message
    history; there is no retry and no tool round after the second model
    call.  (What a tool's code fetches itself is not counted.) *)
Theorem at_most_two_model_calls
    (messages : list Message) (config : LLMConfig) (tools : list Tool)
    (onChunk onToolCall onToolResult : bool) (w : World) :
  exists new,
    requests (snd (createApiCall messages config tools onChunk onToolCall
                                 onToolResult w))
    = (requests w ++ new)%list
    /\ length new <= 2
    /\ forall p,
         getProviderForModel (model config) = Some p ->
         Forall (fun req =>
                   exists messagesToSend,
                     requestOf p messages
                       (mergedConfig config (getProviderConfigs p)) tools
                       onChunk messagesToSend
                     = Some req)
                new.
Proof.
  destruct (getProviderForModel (model config)) as [p|] eqn:Hp.
  - rewrite (createApiCall_requests messages config tools onChunk onToolCall
               onToolResult w Hp).
    destruct (callProvider_appends
                (fun req =>
                   exists messagesToSend,
                     requestOf p messages
                       (mergedConfig config (getProviderConfigs p)) tools
                       onChunk messagesToSend
                     = Some req)
                p messages
                (mergedConfig config (getProviderConfigs p)) tools onChunk
                onToolCall onToolResult) with (w := w)
      as (new & He & Hf & Hl); [eauto|].
    exists new. repeat split; auto.
    intros p' [= <-]. exact Hf.
  - rewrite createApiCall_run, Hp. exists []. simpl.
    rewrite app_nil_r. repeat split; auto.
Qed.

(** X9. A model that [isModelComplete] accepts for the given configuration
    passes the credential guard of its adapter whatever the store holds, so
    the facade call reaches the network: the request for the caller's
    history is issued first. *)
Theorem complete_model_reaches_network
    (messages : list Message) (config : LLMConfig) (tools : list Tool)
    (onChunk onToolCall onToolResult : bool) (w : World) :
  isModelComplete (model config) (apiKey config) (baseUrl config) = true ->
  exists p,
    getProviderForModel (model config) = Some p
    /\ hasCredential p (mergedConfig config (getProviderConfigs p)) = true
    /\ forall req,
         requestOf p messages (mergedConfig config (getProviderConfigs p))
                   tools onChunk messages = Some req ->
         exists rest,
           requests (snd (createApiCall messages config tools onChunk
                                        onToolCall onToolResult w))
           = (requests w ++ req :: rest)%list.
Proof.
  unfold isModelComplete. intros H.
  destruct (getProviderForModel (model config)) as [p|] eqn:Hp;
    [|discriminate].
  exists p. split; [reflexivity|].
  assert (hasCredential p (mergedConfig config (getProviderConfigs p)) = true)
    as Hcred.
  { unfold mergedConfig. destruct p; simpl; try reflexivity;
      destruct (truthy_str match getProviderConfigs _ with
                           | Some pc => storedApiKey pc
                           | None => None
                           end) eqn:Hs; auto. }
  split; [exact Hcred|]. intros req Hreq.
  rewrite (createApiCall_requests messages config tools onChunk onToolCall
             onToolResult w Hp).
  now apply callProvider_first_request.
Qed.

End WithEnv.
End FacadeFacts.

(* ================================================================== *)
(** ** Further properties of the adapters: callbacks and streaming *)

Module EventFacts.
Import Types CostCalculator Data Utils Statements MoreStatements CallFacts.
#[local] Close Scope Q_scope.
#[local] Open Scope nat_scope.

Section WithEnv.
Context {E : Env}.

(** *** Computations that append to the callback log *)

Lemma emits_quiet {A} (P : Event -> Prop) (m : M A) :
  (forall w, events (snd (m w)) = events w) -> emits P m.
Proof.
  intros H w. exists []. rewrite H, app_nil_r. auto.
Qed.

Lemma emits_ret {A} P (a : A) : emits P (ret a).
Proof. now apply emits_quiet. Qed.

Lemma emits_throw {A} P (e : string) : emits P (@throw A e).
Proof. now apply emits_quiet. Qed.

Lemma emits_liftOutcome {A} P (o : Outcome A) : emits P (liftOutcome o).
Proof. now apply emits_quiet. Qed.

Lemma emits_newUUID P : emits P newUUID.
Proof. now apply emits_quiet. Qed.

Lemma emits_doFetch P (req : Request) : emits P (doFetch req).
Proof. now apply emits_quiet. Qed.

Lemma emits_notify (P : Event -> Prop) (supplied : bool) (e : Event) :
  (supplied = true -> P e) -> emits P (notify supplied e).
Proof.
  intros H w. unfold notify. destruct supplied; simpl.
  - exists [e]. auto.
  - exists []. rewrite app_nil_r. auto.
Qed.

Lemma emits_bind {A B} P (m : M A) (k : A -> M B) :
  emits P m -> (forall a, emits P (k a)) -> emits P (bind m k).
Proof.
  intros Hm Hk w. unfold bind.
  destruct (Hm w) as (new1 & E1 & F1).
  destruct (m w) as [[a|e] w1]; simpl in *; [|eauto].
  destruct (Hk a w1) as (new2 & E2 & F2).
  exists (new1 ++ new2)%list. rewrite E2, E1, app_assoc.
  split; [reflexivity | now apply Forall_app].
Qed.

Lemma emits_tryCatch {A} P (m : M A) (h : string -> M A) :
  emits P m -> (forall e, emits P (h e)) -> emits P (tryCatch m h).
Proof.
  intros Hm Hh w. unfold tryCatch.
  destruct (Hm w) as (new1 & E1 & F1).
  destruct (m w) as [[a|e] w1]; simpl in *; [eauto|].
  destruct (Hh e w1) as (new2 & E2 & F2).
  exists (new1 ++ new2)%list. rewrite E2, E1, app_assoc.
  split; [reflexivity | now apply Forall_app].
Qed.

Lemma emits_readStream (P : Event -> Prop) lines fullContent :
  (forall s, P (Chunk s)) -> emits P (readStream lines fullContent).
Proof.
  intros HP. revert fullContent.
  induction lines as [|l lines IH]; intros fullContent; simpl;
    [apply emits_ret|].
  destruct (truthy_str (fragment l)); [|apply IH].
  apply emits_bind; [apply emits_notify; auto | intros _; apply IH].
Qed.

Lemma emits_executeTool P (t : Tool) (args : JsValue) :
  emits P (executeTool t args).
Proof.
  unfold executeTool.
  destruct (runCode (code t) args); auto using emits_ret, emits_throw.
Qed.

Lemma emits_resolveToolCall (P : Event -> Prop) tools onToolCall onToolResult
    toolCall history :
  (onToolCall = true -> forall tc, P (ToolCallIssued tc)) ->
  (onToolResult = true -> forall i r e, P (ToolResolved i r e)) ->
  emits P (resolveToolCall tools onToolCall onToolResult toolCall history).
Proof.
  intros Hc Hr. unfold resolveToolCall.
  apply emits_bind; [apply emits_notify; auto | intros _].
  apply emits_tryCatch.
  - apply emits_bind.
    + destruct (find _ tools); auto using emits_ret, emits_throw.
    + intros t. apply emits_bind; [apply emits_executeTool | intros r].
      apply emits_bind; [apply emits_notify; auto | intros _].
      apply emits_bind; [apply emits_newUUID | intros i; apply emits_ret].
  - intros e.
    apply emits_bind; [apply emits_notify; auto | intros _].
    apply emits_bind; [apply emits_newUUID | intros i; apply emits_ret].
Qed.

Lemma emits_executeTools (P : Event -> Prop) tools onToolCall onToolResult
    calls history :
  (onToolCall = true -> forall tc, P (ToolCallIssued tc)) ->
  (onToolResult = true -> forall i r e, P (ToolResolved i r e)) ->
  emits P (executeTools tools onToolCall onToolResult calls history).
Proof.
  intros Hc Hr. revert history.
  induction calls as [|tc calls IH]; intros history; simpl;
    [apply emits_ret|].
  apply emits_bind; [now apply emits_resolveToolCall | intros h; apply IH].
Qed.

Lemma emits_googleParts P parts content toolCalls :
  emits P (googleParts parts content toolCalls).
Proof.
  revert content toolCalls.
  induction parts as [|part parts IH]; intros content toolCalls; simpl;
    [apply emits_ret|].
  destruct (truthy_str (partText part)); [apply IH|].
  destruct (functionCall part) as [[n a]|]; [|apply IH].
  apply emits_bind; [apply emits_newUUID | intros i; apply IH].
Qed.

Lemma emits_googleParse P (data : ResponseData) : emits P (googleParse data).
Proof.
  unfold googleParse. apply emits_bind; [|intros; apply emits_ret].
  destruct (candidateParts data); [apply emits_googleParts | apply emits_ret].
Qed.

Lemma emits_after_fetch (P : Event -> Prop) (failure : Response -> string)
    (streaming : bool) (usageOf : list StreamLine -> option TokenUsage)
    (parse : ResponseData -> M ApiResult) (response : Response) :
  (streaming = true -> forall s, P (Chunk s)) ->
  (forall data, emits P (parse data)) ->
  emits P
    (if negb (ok response)
     then throw (failure response)
     else
       match (if streaming then body response else None) with
       | Some lines =>
           bind (readStream lines EmptyString)
                (fun fullContent =>
                   ret (mkApiResult
                          (strOr (Some fullContent) "No response received")
                          (usageOf lines) None))
       | None => parse (json response)
       end).
Proof.
  intros Hs Hparse.
  destruct (negb (ok response)); [apply emits_throw|].
  destruct streaming; [|apply Hparse].
  destruct (body response) as [lines|]; [|apply Hparse].
  apply emits_bind; [apply emits_readStream; auto | intros; apply emits_ret].
Qed.

(** One [makeApiCall] invokes no callback but [onChunk], and that one only
    in its streaming branch. *)
Lemma emits_makeApiCallOf (P : Event -> Prop) p messages config tools onChunk
    messagesToSend :
  (streams p config tools onChunk = true -> forall s, P (Chunk s)) ->
  emits P (makeApiCallOf p messages config tools onChunk messagesToSend).
Proof.
  intros HP. destruct p; simpl in *.
  - apply emits_bind; [apply emits_doFetch | intros response].
    apply (@emits_after_fetch P
             (fun r => "OpenAI API error: "
                       ++ strOr (errorMessage r) "Unknown error")%string
             _ (fun _ => None) (fun d => ret (openaiParse d)) response HP).
    intros; apply emits_ret.
  - apply emits_bind; [apply emits_doFetch | intros response].
    apply (@emits_after_fetch P
             (fun r => "Anthropic API error: "
                       ++ strOr (errorMessage r) "Unknown error")%string
             _ (fun _ => None) (fun d => ret (anthropicParse d)) response HP).
    intros; apply emits_ret.
  - unfold googleMakeApiCall.
    apply emits_bind; [apply emits_liftOutcome | intros contents].
    apply emits_bind; [apply emits_doFetch | intros response].
    apply (@emits_after_fetch P
             (fun r => "Google API error: "
                       ++ strOr (errorMessage r) "Unknown error")%string
             _ (fun _ => None) googleParse response HP).
    apply emits_googleParse.
  - apply emits_bind; [apply emits_doFetch | intros response].
    apply (@emits_after_fetch P
             (fun r => "Ollama API error: " ++ statusText r)%string
             _ (fun lines => streamUsage lines None)
             (fun d => ret (ollamaParse d)) response HP).
    intros; apply emits_ret.
Qed.

Lemma emits_withToolRound (P : Event -> Prop)
    (makeApiCall : list Message -> M ApiResult) tools onToolCall onToolResult
    messages :
  (forall messagesToSend, emits P (makeApiCall messagesToSend)) ->
  (onToolCall = true -> forall tc, P (ToolCallIssued tc)) ->
  (onToolResult = true -> forall i r e, P (ToolResolved i r e)) ->
  emits P (withToolRound makeApiCall tools onToolCall onToolResult messages).
Proof.
  intros Hmk Hc Hr. unfold withToolRound.
  apply emits_bind; [apply Hmk | intros initial].
  destruct (resToolCalls initial) as [[|tc calls]|]; try apply emits_ret.
  apply emits_bind; [apply emits_newUUID | intros i].
  apply emits_bind; [now apply emits_executeTools | intros history].
  apply emits_bind; [apply Hmk | intros final; apply emits_ret].
Qed.

Lemma emits_callProvider (P : Event -> Prop) p messages config tools onChunk
    onToolCall onToolResult :
  (streams p config tools onChunk = true -> forall s, P (Chunk s)) ->
  (notifies p onToolCall = true -> forall tc, P (ToolCallIssued tc)) ->
  (notifies p onToolResult = true -> forall i r e, P (ToolResolved i r e)) ->
  emits P (callProvider p messages config tools onChunk onToolCall
                        onToolResult).
Proof.
  intros Hs Hc Hr. rewrite callProvider_cases.
  destruct (negb (hasCredential p config)); [apply emits_throw|].
  destruct (runsToolRound p config tools).
  - apply emits_withToolRound; auto.
    intros messagesToSend. now apply emits_makeApiCallOf.
  - now apply emits_makeApiCallOf.
Qed.

(** X10. The local adapter never invokes the tool callbacks: whatever tool
    round it runs, the only callback invocations of an Ollama call are
    [onChunk] ones. *)
Theorem ollama_never_notifies_tools
    (messages : list Message) (config : LLMConfig) (tools : list Tool)
    (onChunk onToolCall onToolResult : bool) (w : World) :
  exists new,
    events (snd (callProvider ollama messages config tools onChunk onToolCall
                              onToolResult w))
    = (events w ++ new)%list
    /\ Forall isChunk new.
Proof.
  apply (@emits_callProvider isChunk ollama messages config tools onChunk
           onToolCall onToolResult); simpl; try discriminate.
  intros _ s. exact I.
Qed.

(** X11. [onChunk] is invoked only by a streamed call: when it is not
    supplied, or when tools are sent (a non-empty tools list, for the local
    adapter with a model that declares tool support), no adapter invokes it,
    in either round. *)
Theorem no_chunk_without_streaming
    (p : LLMProvider) (messages : list Message) (config : LLMConfig)
    (tools : list Tool) (onChunk onToolCall onToolResult : bool) (w : World) :
  onChunk = false \/ (tools <> [] /\ runsToolRound p config tools = true) ->
  exists new,
    events (snd (callProvider p messages config tools onChunk onToolCall
                              onToolResult w))
    = (events w ++ new)%list
    /\ Forall notChunk new.
Proof.
  intros H.
  assert (streams p config tools onChunk = false) as Hs.
  { destruct H as [->|[Htools Hround]].
    - destruct p; simpl; auto using andb_false_r.
    - apply isEmpty_false in Htools.
      destruct p; simpl in *; unfold declarations;
        rewrite ?isEmpty_map, ?Htools, ?Hround; auto using andb_false_r. }
  apply (@emits_callProvider notChunk p messages config tools onChunk
           onToolCall onToolResult).
  - rewrite Hs. discriminate.
  - intros _ tc. exact I.
  - intros _ i r e. exact I.
Qed.

End WithEnv.
End EventFacts.

(* ================================================================== *)
(** ** Further properties of the tool round *)

Module RoundFacts.
Import Types CostCalculator Data Utils Statements MoreStatements CallFacts.
#[local] Close Scope Q_scope.
#[local] Open Scope nat_scope.

Section WithEnv.
Context {E : Env}.

(** One tool call resolved: the message pushed, the network untouched. *)
Lemma resolveToolCall_full tools onToolCall onToolResult toolCall history
    (w : World) :
  exists msg w',
    resolveToolCall tools onToolCall onToolResult toolCall history w
    = (Ok (history ++ [msg])%list, w')
    /\ answersCall tools toolCall msg
    /\ requests w' = requests w.
Proof.
  unfold resolveToolCall, answersCall, toolMessageContent, named.
  unfold bind, tryCatch, executeTool, notify, newUUID, ret, throw.
  destruct (find _ tools) as [t|];
    [destruct (runCode (code t) (arguments toolCall))|];
    destruct onToolCall, onToolResult; simpl;
    eexists; eexists; (split; [reflexivity|]); simpl; auto 10.
Qed.

Lemma executeTools_full tools onToolCall onToolResult calls history (w : World) :
  exists toolMessages w',
    executeTools tools onToolCall onToolResult calls history w
    = (Ok (history ++ toolMessages)%list, w')
    /\ Forall2 (answersCall tools) calls toolMessages
    /\ requests w' = requests w.
Proof.
  revert history w.
  induction calls as [|tc calls IH]; intros history w; simpl.
  - exists [], w. rewrite !app_nil_r. auto.
  - unfold bind.
    destruct (resolveToolCall_full tools onToolCall onToolResult tc history w)
      as (msg & w1 & -> & Hmsg & Hq1).
    destruct (IH (history ++ [msg])%list w1)
      as (rest & w2 & -> & Hall & Hq2).
    exists (msg :: rest), w2. rewrite <- app_assoc. simpl.
    repeat split; auto. congruence.
Qed.

(** An adapter whose first call returns tool calls: the history it extends
    and the final call it makes. *)
Lemma tool_round_run p messages config tools onChunk onToolCall onToolResult
    (w w1 : World) (initial : ApiResult) (calls : list ToolCall) :
  hasCredential p config = true ->
  runsToolRound p config tools = true ->
  makeApiCallOf p messages config tools onChunk messages w = (Ok initial, w1) ->
  resToolCalls initial = Some calls ->
  calls <> [] ->
  exists toolMessages w2,
    let assistantMessage :=
      mkMessage (randomUUID (uuids w1)) assistant (resContent initial)
                (Some calls) None in
    let history := (messages ++ assistantMessage :: toolMessages)%list in
    Forall2 (answersCall tools) calls toolMessages
    /\ requests w2 = requests w1
    /\ callProvider p messages config tools onChunk onToolCall onToolResult w
       = match makeApiCallOf p messages config tools onChunk history w2 with
         | (Ok final, w3) =>
             (Ok (mkApiResult (resContent final)
                    (combinedTokenUsage (resTokenUsage initial)
                                        (resTokenUsage final))
                    (Some calls)), w3)
         | (Err e, w3) => (Err e, w3)
         end.
Proof.
  intros Hcred Hround Hinit Hcalls Hne.
  rewrite callProvider_cases, Hcred, Hround. simpl.
  unfold withToolRound, bind. rewrite Hinit, Hcalls.
  destruct calls as [|tc rest]; [congruence|].
  unfold newUUID at 1. cbv beta iota.
  set (w1' := mkWorld (requests w1) (events w1) (S (uuids w1))).
  set (assistantMessage := mkMessage _ assistant _ _ _).
  destruct (executeTools_full tools (notifies p onToolCall)
              (notifies p onToolResult) (tc :: rest)
              (messages ++ [assistantMessage])%list w1')
    as (toolMessages & w2 & He & Hall & Hq).
  exists toolMessages, w2. cbv zeta.
  split; [exact Hall|]. split; [exact Hq|].
  rewrite He, <- app_assoc.
  change ([assistantMessage] ++ toolMessages)%list
    with (assistantMessage :: toolMessages).
  destruct (makeApiCallOf p messages config tools onChunk _ w2)
    as [[final|e] w3]; reflexivity.
Qed.

(** A resolved [makeApiCall] has issued the one request it built. *)
Lemma makeApiCallOf_resolved p messages config tools onChunk messagesToSend
    (w w' : World) (r : ApiResult) :
  makeApiCallOf p messages config tools onChunk messagesToSend w = (Ok r, w') ->
  exists req,
    requestOf p messages config tools onChunk messagesToSend = Some req
    /\ requests w' = (requests w ++ [req])%list.
Proof.
  intros H.
  destruct (requestOf p messages config tools onChunk messagesToSend)
    as [req|] eqn:Hreq.
  - exists req. split; [reflexivity|].
    destruct (makeApiCallOf_runs p messages config tools onChunk
                messagesToSend w Hreq) as [Hlog _].
    now rewrite H in Hlog.
  - destruct p; try discriminate. simpl in *.
    unfold googleMakeApiCall in H.
    destruct (googleContents messagesToSend (filter notSystem messagesToSend));
      discriminate.
Qed.

(** X12. Without tool calls in the first response there is no second round:
    the adapter returns the result of its first call as it is, after exactly
    one request. *)
Theorem no_tool_calls_one_request
    (p : LLMProvider) (messages : list Message) (config : LLMConfig)
    (tools : list Tool) (onChunk onToolCall onToolResult : bool)
    (w w1 : World) (initial : ApiResult) :
  hasCredential p config = true ->
  makeApiCallOf p messages config tools onChunk messages w = (Ok initial, w1) ->
  resToolCalls initial = None \/ resToolCalls initial = Some [] ->
  callProvider p messages config tools onChunk onToolCall onToolResult w
  = (Ok initial, w1)
  /\ exists req,
       requestOf p messages config tools onChunk messages = Some req
       /\ requests w1 = (requests w ++ [req])%list.
Proof.
  intros Hcred Hinit Hnone. split; [|now apply makeApiCallOf_resolved in Hinit].
  rewrite callProvider_cases, Hcred. simpl.
  destruct (runsToolRound p config tools); [|exact Hinit].
  pose proof (withToolRound_run (makeApiCallOf p messages config tools onChunk)
                tools (notifies p onToolCall) (notifies p onToolResult)
                messages w) as Hrun.
  rewrite Hinit in Hrun. destruct Hnone as [Hn|Hn]; now rewrite Hn in Hrun.
Qed.

Lemma answers_in_order (tools : list Tool) (calls : list ToolCall)
    (toolMessages : list Message) :
  Forall2 (answersCall tools) calls toolMessages ->
  map role toolMessages = map (fun _ => tool) calls
  /\ map toolCallId toolMessages = map (fun tc => Some (callId tc)) calls.
Proof.
  induction 1 as [|tc m cs ms (Hr & Hi & _) _ [IHr IHi]]; simpl;
    [split; reflexivity|].
  now rewrite Hr, Hi, IHr, IHi.
Qed.

(** A [makeApiCall] whose request cannot be built fails before the
    network. *)
Lemma makeApiCallOf_unbuilt p messages config tools onChunk messagesToSend
    (w : World) :
  requestOf p messages config tools onChunk messagesToSend = None ->
  exists e,
    makeApiCallOf p messages config tools onChunk messagesToSend w = (Err e, w).
Proof.
  destruct p; try discriminate. simpl. unfold googleMakeApiCall.
  destruct (googleContents messagesToSend (filter notSystem messagesToSend))
    as [contents|e]; [discriminate|].
  intros _. exists e. reflexivity.
Qed.

(** X13. The history of the second call is the caller's history, then one
    assistant message with the text and the tool calls of the first
    response, then exactly one [tool] message per tool call, in the order of
    the calls, each referencing the id of its call.  The second request of
    the call is the request the adapter builds from that history; where it
    cannot be built (the Google adapter, which parses the content of every
    tool message), the call fails without a second request. *)
Theorem tool_round_history
    (p : LLMProvider) (messages : list Message) (config : LLMConfig)
    (tools : list Tool) (onChunk onToolCall onToolResult : bool)
    (w w1 : World) (initial : ApiResult) (calls : list ToolCall) :
  hasCredential p config = true ->
  runsToolRound p config tools = true ->
  makeApiCallOf p messages config tools onChunk messages w = (Ok initial, w1) ->
  resToolCalls initial = Some calls ->
  calls <> [] ->
  exists assistantMessage toolMessages,
    role assistantMessage = assistant
    /\ content assistantMessage = resContent initial
    /\ toolCalls assistantMessage = Some calls
    /\ map role toolMessages = map (fun _ => tool) calls
    /\ map toolCallId toolMessages = map (fun tc => Some (callId tc)) calls
    /\ match requestOf p messages config tools onChunk
                       (messages ++ assistantMessage :: toolMessages)%list with
       | Some req =>
           requests (snd (callProvider p messages config tools onChunk
                                       onToolCall onToolResult w))
           = (requests w1 ++ [req])%list
       | None =>
           requests (snd (callProvider p messages config tools onChunk
                                       onToolCall onToolResult w))
           = requests w1
           /\ exists e,
                fst (callProvider p messages config tools onChunk
                                  onToolCall onToolResult w) = Err e
       end.
Proof.
  intros Hcred Hround Hinit Hcalls Hne.
  destruct (@tool_round_run p messages config tools onChunk onToolCall
              onToolResult w w1 initial calls Hcred Hround Hinit Hcalls Hne)
    as (tms & w2 & Hall & Hq & Hrun).
  exists (mkMessage (randomUUID (uuids w1)) assistant (resContent initial)
                    (Some calls) None), tms.
  destruct (answers_in_order Hall) as [Hroles Hids].
  repeat split; auto.
  rewrite Hrun.
  destruct (requestOf p messages config tools onChunk _) as [req|] eqn:Hreq.
  - destruct (makeApiCallOf_runs p messages config tools onChunk _ w2 Hreq)
      as [Hlog _].
    destruct (makeApiCallOf p messages config tools onChunk _ w2)
      as [[final|e] w3]; simpl in *; now rewrite Hlog, Hq.
  - destruct (makeApiCallOf_unbuilt p messages config tools onChunk _ w2 Hreq)
      as (e & ->).
    simpl. split; [exact Hq | eauto].
Qed.

(** X14. Under the OpenAI, Anthropic and Ollama adapters a tool call that
    names no tool of the supplied list does not abort the call: a [tool]
    message referencing the call, with content
    [Error: Tool "<name>" not found], is on the history the second request
    is built from, that request is issued, and the call resolves when it
    succeeds. *)
Theorem unknown_tool_is_fed_back
    (p : LLMProvider) (messages : list Message) (config : LLMConfig)
    (tools : list Tool) (onChunk onToolCall onToolResult : bool)
    (w w1 : World) (initial : ApiResult) (calls : list ToolCall)
    (toolCall : ToolCall) :
  p <> google ->
  hasCredential p config = true ->
  runsToolRound p config tools = true ->
  makeApiCallOf p messages config tools onChunk messages w = (Ok initial, w1) ->
  resToolCalls initial = Some calls ->
  In toolCall calls ->
  find (named toolCall) tools = None ->
  exists history req,
    (exists i,
        In (mkMessage i tool
              ("Error: Tool " ++ dquote ++ callName toolCall ++ dquote
               ++ " not found")
              None (Some (callId toolCall)))
           history)
    /\ requestOf p messages config tools onChunk history = Some req
    /\ requests (snd (callProvider p messages config tools onChunk
                                   onToolCall onToolResult w))
       = (requests w1 ++ [req])%list
    /\ (ok (fetch (length (requests w1)) req) = true ->
        exists r w',
          callProvider p messages config tools onChunk onToolCall
                       onToolResult w = (Ok r, w')
          /\ resToolCalls r = Some calls).
Proof.
  intros Hp Hcred Hround Hinit Hcalls Hin Hfind.
  assert (calls <> []) as Hne by (intros ->; contradiction).
  destruct (@tool_round_run p messages config tools onChunk onToolCall
              onToolResult w w1 initial calls Hcred Hround Hinit Hcalls Hne)
    as (tms & w2 & Hall & Hq & Hrun).
  destruct (@Forall2_In_left _ _ _ _ _ toolCall Hall Hin)
    as (msg & Hmsg & Hr & Hid & Htc & Hc).
  set (history := (messages
                   ++ mkMessage (randomUUID (uuids w1)) assistant
                        (resContent initial) (Some calls) None :: tms)%list)
    in *.
  assert (exists req,
             requestOf p messages config tools onChunk history = Some req)
    as (req & Hreq)
    by (destruct p; simpl; eauto; congruence).
  exists history, req.
  destruct (makeApiCallOf_runs p messages config tools onChunk _ w2 Hreq)
    as [Hlog Hok].
  split; [|split; [exact Hreq|split]].
  - exists (msgId msg). apply in_or_app. right. right.
    replace (mkMessage _ _ _ _ _) with msg; [exact Hmsg|].
    unfold toolMessageContent in Hc. rewrite Hfind in Hc.
    destruct msg as [i r c tcs tid]. simpl in *. now subst.
  - rewrite Hrun.
    destruct (makeApiCallOf p messages config tools onChunk _ w2)
      as [[final|e] w3]; simpl in *; now rewrite Hlog, Hq.
  - intros Hresp. rewrite <- Hq in Hresp.
    destruct (Hok Hresp) as (final & w3 & Hfinal).
    rewrite Hrun, Hfinal. eauto.
Qed.

End WithEnv.
End RoundFacts.

(* ================================================================== *)
(** ** Further properties of the adapters: results and requests *)

Module StreamFacts.
Import Types CostCalculator Data Utils Statements MoreStatements CallFacts.
#[local] Close Scope Q_scope.
#[local] Open Scope nat_scope.

Lemma append_assoc (a b c : string) :
  ((a ++ b) ++ c)%string = (a ++ (b ++ c))%string.
Proof. induction a as [|x a IH]; simpl; [reflexivity | now rewrite IH]. Qed.

Lemma append_empty_r (a : string) : (a ++ EmptyString)%string = a.
Proof. induction a as [|x a IH]; simpl; [reflexivity | now rewrite IH]. Qed.

Lemma strOr_nonempty (s : option string) (fallback : string) :
  fallback <> EmptyString -> strOr s fallback <> EmptyString.
Proof.
  intros H. destruct s as [s|]; simpl; [|exact H].
  destruct (String.eqb_spec s EmptyString); [exact H | assumption].
Qed.

Section WithEnv.
Context {E : Env}.

(** The streaming loop: the fragments are appended to the content in order
    and each is handed to [onChunk] in the same order. *)
Lemma readStream_full (lines : list StreamLine) (fullContent : string)
    (w : World) :
  readStream lines fullContent w
  = (Ok (fullContent ++ joined (fragments lines))%string,
     mkWorld (requests w) (events w ++ map Chunk (fragments lines))%list
             (uuids w)).
Proof.
  revert fullContent w.
  induction lines as [|l lines IH]; intros fullContent w; simpl.
  - unfold ret. rewrite append_empty_r, app_nil_r. now destruct w.
  - destruct (truthy_str (fragment l)); [|apply IH].
    unfold bind, notify. rewrite IH. simpl.
    now rewrite append_assoc, <- app_assoc.
Qed.

Lemma ollamaMakeApiCall_hasContent config tools onChunk messagesToSend :
  returns hasContent (ollamaMakeApiCall config tools onChunk messagesToSend).
Proof.
  intros w a w' H.
  unfold ollamaMakeApiCall, bind at 1, doFetch in H. cbv beta iota in H.
  match type of H with
  | (if ?c then _ else _) _ = _ => destruct c; [discriminate|]
  end.
  match type of H with
  | match ?c with Some _ => _ | None => _ end _ = _ =>
      destruct c as [lines|]
  end.
  - unfold bind in H. rewrite readStream_full in H.
    injection H as <- <-.
    exact (@strOr_nonempty (Some (joined (fragments lines)))
             "No response received" ltac:(discriminate)).
  - injection H as <- <-.
    exact (@strOr_nonempty _ "No response received" ltac:(discriminate)).
Qed.

(** X18. The local adapter never returns an empty content: whether the
    response was streamed or buffered, after a tool round or not, the
    content of a resolved Ollama call is a non-empty string. *)
Theorem ollama_content_never_empty
    (messages : list Message) (config : LLMConfig) (tools : list Tool)
    (onChunk onToolCall onToolResult : bool) (w w' : World) (r : ApiResult) :
  callProvider ollama messages config tools onChunk onToolCall onToolResult w
  = (Ok r, w') ->
  resContent r <> EmptyString.
Proof.
  simpl. unfold callOllama. intros Hcall.
  destruct (negb (ollamaSupportsTools config tools));
    [now apply ollamaMakeApiCall_hasContent in Hcall|].
  pose proof (withToolRound_run (ollamaMakeApiCall config tools onChunk)
                tools false false messages w) as Hrun.
  destruct (ollamaMakeApiCall config tools onChunk messages w)
    as [[initial|e] w1] eqn:Hinit; [|congruence].
  apply ollamaMakeApiCall_hasContent in Hinit.
  destruct (resToolCalls initial) as [[|tc rest]|];
    try (rewrite Hrun in Hcall; now injection Hcall as <- <-).
  destruct Hrun as (am & tms & w2 & _ & _ & _ & Hrun).
  rewrite Hrun in Hcall.
  destruct (ollamaMakeApiCall config tools onChunk _ w2)
    as [[final|e] w3] eqn:Hfinal; [|discriminate].
  apply ollamaMakeApiCall_hasContent in Hfinal.
  now injection Hcall as <- <-.
Qed.

(** *** The shape of the requests *)

Lemma roleName_inline (r : Role) :
  In (roleName r) ["user"; "assistant"; "system"; "tool"]%string.
Proof. destruct r; simpl; auto. Qed.

Lemma googleContents_roles (messagesToSend msgs : list Message)
    (contents : list WireMessage) :
  googleContents messagesToSend msgs = Ok contents ->
  Forall (fun m => In (wRole m) (wireRoles google)) contents.
Proof.
  revert contents.
  induction msgs as [|msg msgs IH]; simpl; intros contents H.
  - injection H as <-. constructor.
  - destruct (googleMessage messagesToSend msg) as [m|e] eqn:Hm;
      [|discriminate].
    destruct (googleContents messagesToSend msgs) as [ms|e]; [|discriminate].
    injection H as <-. constructor; [|now apply IH].
    unfold googleMessage in Hm.
    destruct (isRole (role msg) tool).
    + destruct (JSON_parse (content msg)); [|discriminate].
      injection Hm as <-. simpl. auto.
    + destruct (toolCalls msg); injection Hm as <-; simpl;
        unfold googleRole; destruct (isRole (role msg) assistant); auto.
Qed.

Lemma requestOf_roles p messages config tools onChunk messagesToSend req :
  requestOf p messages config tools onChunk messagesToSend = Some req ->
  Forall (fun m => In (wRole m) (wireRoles p)) (bodyMessages req)
  /\ bodySystem req = systemField p messages.
Proof.
  intros H. destruct p; simpl in H.
  - injection H as <-. split; [|reflexivity]. simpl.
    apply Forall_map, Forall_forall. intros msg _. apply roleName_inline.
  - injection H as <-. split; [|reflexivity]. simpl.
    apply Forall_map, Forall_forall. intros msg Hin.
    apply filter_In in Hin. destruct Hin as [_ Hns].
    unfold anthropicMessage, notSystem in *.
    destruct (role msg); simpl in *; try discriminate;
      destruct (toolCalls msg); simpl; auto.
  - destruct (googleContents messagesToSend (filter notSystem messagesToSend))
      as [contents|e] eqn:Hc; [|discriminate].
    injection H as <-. split; [|reflexivity].
    now apply googleContents_roles in Hc.
  - injection H as <-. split; [|reflexivity]. simpl.
    apply Forall_map, Forall_forall. intros msg _.
    unfold ollamaMessage.
    destruct (isRole (role msg) tool); [simpl; auto|].
    destruct (toolCalls msg); apply roleName_inline.
Qed.

(** X19. System text is out of band for Anthropic and Google and inline for
    the others: in every request of a call, the turns of an Anthropic
    request have only the roles user and assistant and those of a Google
    request only user, model and function, and the request's system field is
    the content of the first system message of the caller's history (left
    out by Google when empty); OpenAI and Ollama requests have no system
    field and use the four role names as they are. *)
Theorem system_text_placement
    (p : LLMProvider) (messages : list Message) (config : LLMConfig)
    (tools : list Tool) (onChunk onToolCall onToolResult : bool) (w : World) :
  exists new,
    requests (snd (callProvider p messages config tools onChunk onToolCall
                                onToolResult w))
    = (requests w ++ new)%list
    /\ Forall (fun req =>
                 Forall (fun m => In (wRole m) (wireRoles p)) (bodyMessages req)
                 /\ bodySystem req = systemField p messages)
              new.
Proof.
  destruct (@callProvider_appends E
              (fun req =>
                 Forall (fun m => In (wRole m) (wireRoles p)) (bodyMessages req)
                 /\ bodySystem req = systemField p messages)
              p messages config tools onChunk onToolCall onToolResult)
    with (w := w) as (new & He & Hf & _).
  - intros messagesToSend req. apply requestOf_roles.
  - eauto.
Qed.

Lemma requestOf_tools p messages config tools onChunk messagesToSend req :
  requestOf p messages config tools onChunk messagesToSend = Some req ->
  bodyTools req = None
  \/ (tools <> [] /\ bodyTools req = Some (declarations tools)).
Proof.
  intros H.
  assert (forall A (l : list A), isEmpty l = false -> l <> []) as Hne
    by (intros A [|x l]; simpl; congruence).
  destruct p; simpl in H.
  - injection H as <-. simpl. unfold declarations. rewrite isEmpty_map.
    destruct (isEmpty tools) eqn:He; auto.
  - injection H as <-. simpl. unfold declarations. rewrite isEmpty_map.
    destruct (isEmpty tools) eqn:He; auto.
  - destruct (googleContents _ _); [|discriminate].
    injection H as <-. simpl. unfold declarations. rewrite isEmpty_map.
    destruct (isEmpty tools) eqn:He; auto.
  - injection H as <-. simpl.
    destruct (ollamaSupportsTools config tools) eqn:Hs; auto.
    right. split; [|reflexivity].
    unfold ollamaSupportsTools in Hs.
    destruct (getModelInfo (model config)); [|discriminate].
    apply andb_prop in Hs. destruct Hs as [_ Hs].
    apply Hne. now destruct (isEmpty tools).
Qed.

(** X20. No request carries an empty tools array: in every request of a
    call the tools field is either absent or holds the declarations of the
    caller's non-empty tools list, one per tool and in its order. *)
Theorem tools_field_absent_or_full
    (p : LLMProvider) (messages : list Message) (config : LLMConfig)
    (tools : list Tool) (onChunk onToolCall onToolResult : bool) (w : World) :
  exists new,
    requests (snd (callProvider p messages config tools onChunk onToolCall
                                onToolResult w))
    = (requests w ++ new)%list
    /\ Forall (fun req =>
                 bodyTools req = None
                 \/ (tools <> []
                     /\ bodyTools req = Some (map toolFunction tools)))
              new.
Proof.
  destruct (@callProvider_appends E
              (fun req =>
                 bodyTools req = None
                 \/ (tools <> []
                     /\ bodyTools req = Some (map toolFunction tools)))
              p messages config tools onChunk onToolCall onToolResult)
    with (w := w) as (new & He & Hf & _).
  - intros messagesToSend req. apply requestOf_tools.
  - eauto.
Qed.

End WithEnv.

(** *** Small algebra of the call layer *)

(** X21. Merging the stored credentials is idempotent: merging the same
    record a second time changes nothing; and with no record for the
    provider the configuration is unchanged. *)
Theorem mergedConfig_idempotent
    (config : LLMConfig) (providerConfig : option ProviderConfig) :
  mergedConfig (mergedConfig config providerConfig) providerConfig
  = mergedConfig config providerConfig
  /\ mergedConfig config None = config.
Proof.
  split.
  - unfold mergedConfig. simpl.
    destruct providerConfig as [[k u]|]; simpl; [|reflexivity].
    destruct (truthy_str k), (truthy_str u); reflexivity.
  - destruct config. reflexivity.
Qed.

(** X22. The usage merge of the tool round is a commutative monoid on
    optional usage records: absent usage is neutral on both sides, and the
    merge is commutative and associative. *)
Theorem combinedTokenUsage_monoid (a b c : option TokenUsage) :
  combinedTokenUsage None a = a
  /\ combinedTokenUsage a None = a
  /\ combinedTokenUsage a b = combinedTokenUsage b a
  /\ combinedTokenUsage (combinedTokenUsage a b) c
     = combinedTokenUsage a (combinedTokenUsage b c).
Proof.
  destruct a as [[]|], b as [[]|], c as [[]|]; simpl;
    repeat split; unfold sumUsage; simpl; f_equal; f_equal; lia.
Qed.

End StreamFacts.

(* ================================================================== *)
(** ** Properties of the storage object and of the state updaters *)

Module StateFacts.
Import Types CostCalculator Data Utils Statements MoreStatements Storage Hook
       StreamFacts.
#[local] Close Scope Q_scope.
#[local] Open Scope nat_scope.

Section WithEnv.
Context {E : Env}.

Lemma readStored_setItem (key : string) (fallback v : JsValue)
    (ls : LocalStorage) :
  JSON_parse (JSON_stringify v) = Ok v ->
  JSON_stringify v <> EmptyString ->
  readStored key fallback (setItem key (JSON_stringify v) ls) = v.
Proof.
  intros Hparse Hne. unfold readStored, getItem, setItem.
  rewrite String.eqb_refl. simpl.
  destruct (String.eqb_spec (JSON_stringify v) EmptyString); [contradiction|].
  simpl. now rewrite Hparse.
Qed.

Lemma readStored_other (key key' value : string) (fallback : JsValue)
    (ls : LocalStorage) :
  String.eqb key key' = false ->
  readStored key fallback (setItem key' value ls) = readStored key fallback ls.
Proof.
  intros H. unfold readStored, getItem, setItem. now rewrite H.
Qed.

(** X23. What is saved is what is read back, for the configuration and for
    the provider credentials: for a value the JSON codec takes to a
    non-empty text and back to itself, [getConfig] returns what [saveConfig]
    stored and [getProviderConfigs] what [saveProviderConfigs] stored,
    whatever was stored before.  (Prompts are left out: their dates are read
    back as strings.) *)
Theorem storage_round_trip (v : JsValue) (ls : LocalStorage) :
  JSON_parse (JSON_stringify v) = Ok v ->
  JSON_stringify v <> EmptyString ->
  getConfig (saveConfig v ls) = v
  /\ getStoredProviderConfigs (saveProviderConfigs v ls) = v.
Proof.
  intros Hparse Hne.
  split; now apply readStored_setItem.
Qed.

(** X24. The three records of [storage] live under distinct keys: saving one
    of them leaves what the getters of the other two return unchanged. *)
Theorem storage_records_independent (v : JsValue) (ls : LocalStorage) :
  getConfig (savePrompts v ls) = getConfig ls
  /\ getStoredProviderConfigs (savePrompts v ls) = getStoredProviderConfigs ls
  /\ getPrompts (saveConfig v ls) = getPrompts ls
  /\ getStoredProviderConfigs (saveConfig v ls) = getStoredProviderConfigs ls
  /\ getPrompts (saveProviderConfigs v ls) = getPrompts ls
  /\ getConfig (saveProviderConfigs v ls) = getConfig ls.
Proof.
  repeat split; now apply readStored_other.
Qed.

End WithEnv.

(** *** Tool selection *)

Lemma includes_In (x : string) (l : list string) :
  includes x l = true <-> In x l.
Proof.
  unfold includes. rewrite existsb_exists. split.
  - intros (y & Hy & He). apply String.eqb_eq in He. now subst.
  - intros H. exists x. split; [exact H | apply String.eqb_refl].
Qed.

Lemma includes_false (x : string) (l : list string) :
  includes x l = false <-> ~ In x l.
Proof.
  rewrite <- includes_In. destruct (includes x l); split; congruence.
Qed.

(** X25. Toggling a tool flips the selection of that tool and of no other:
    its id is selected afterwards exactly when it was not before, every
    other id is selected exactly when it was, and a selection without
    repeats stays without repeats. *)
Theorem toggleTool_flips (toolId : string) (prev : list string) :
  (In toolId (toggleTool toolId prev) <-> ~ In toolId prev)
  /\ (forall x, x <> toolId -> (In x (toggleTool toolId prev) <-> In x prev))
  /\ (NoDup prev -> NoDup (toggleTool toolId prev)).
Proof.
  unfold toggleTool.
  destruct (includes toolId prev) eqn:Hinc.
  - apply includes_In in Hinc. split; [|split].
    + split.
      * intros H. apply filter_In in H. destruct H as [_ H].
        now rewrite String.eqb_refl in H.
      * intros H. contradiction.
    + intros x Hx. split.
      * intros H. now apply filter_In in H.
      * intros H. apply filter_In. split; [exact H|].
        now apply negb_true_iff, String.eqb_neq.
    + intros H. now apply NoDup_filter.
  - apply includes_false in Hinc. split; [|split].
    + split.
      * intros _. exact Hinc.
      * intros _. apply in_or_app. right. now left.
    + intros x Hx. split.
      * intros H. apply in_app_or in H. destruct H as [H|[H|[]]]; congruence.
      * intros H. apply in_or_app. now left.
    + intros H. apply NoDup_app; auto.
      * repeat constructor. intros [].
      * intros a Ha [<-|[]]. contradiction.
Qed.

(** X26. A deleted tool is never sent again: after [deleteTool] the tools
    selected for the next call are the previously selected ones without the
    deleted tool, in the same order. *)
Theorem deleteTool_unselects (id : string) (tools : list ToolEntry)
    (selectedToolIds : list string) :
  selectedTools (fst (deleteTool id (tools, selectedToolIds)))
                (snd (deleteTool id (tools, selectedToolIds)))
  = filter (fun t => negb (String.eqb (entryId t) id))
           (selectedTools tools selectedToolIds).
Proof.
  unfold deleteTool, selectedTools. simpl.
  induction tools as [|t tools IH]; simpl; [reflexivity|].
  destruct (String.eqb_spec (entryId t) id) as [Heq|Hne]; simpl.
  - rewrite IH. destruct (includes (entryId t) selectedToolIds); simpl;
      [|reflexivity].
    apply String.eqb_eq in Heq. now rewrite Heq.
  - assert (includes (entryId t)
              (filter (fun toolId => negb (String.eqb toolId id))
                      selectedToolIds)
            = includes (entryId t) selectedToolIds) as ->.
    { destruct (includes (entryId t) selectedToolIds) eqn:Hi.
      - apply includes_In. apply includes_In in Hi. apply filter_In.
        split; [exact Hi|]. now apply negb_true_iff, String.eqb_neq.
      - apply includes_false. apply includes_false in Hi.
        intros H. apply filter_In in H. tauto. }
    destruct (includes (entryId t) selectedToolIds); simpl; rewrite IH;
      [|reflexivity].
    apply String.eqb_neq in Hne. now rewrite Hne.
Qed.

(** *** Import *)

(** The merge both importers perform, on the names. *)
Lemma import_merge_names {A} (nameOf : A -> string) (imported prev : list A) :
  NoDup (map nameOf imported) ->
  NoDup (map nameOf prev) ->
  NoDup (map nameOf
           (filter (fun x => negb (includes (nameOf x) (map nameOf prev)))
                   imported ++ prev)).
Proof.
  intros Hi Hp. rewrite map_app.
  apply NoDup_app; auto.
  - induction imported as [|x imported IH]; simpl; [constructor|].
    inversion Hi as [|? ? Hx Hrest]; subst.
    destruct (includes (nameOf x) (map nameOf prev)); simpl; auto.
    constructor; auto.
    intros H. apply Hx. apply in_map_iff in H.
    destruct H as (y & Hy & Hin). apply filter_In in Hin.
    apply in_map_iff. exists y. tauto.
  - intros n Hn Hn'. apply in_map_iff in Hn.
    destruct Hn as (y & <- & Hin). apply filter_In in Hin.
    destruct Hin as [_ Hin]. apply negb_true_iff, includes_false in Hin.
    contradiction.
Qed.

(** X27. Importing keeps names unique: the existing prompts (tools) are kept
    as they are, after the imported ones; an imported prompt (tool) whose
    name is already taken is dropped; and when the names in the file are
    distinct and the existing names are distinct, the names after the import
    are distinct. *)
Theorem import_keeps_names_unique
    (importedPrompts prevPrompts : list Prompt)
    (importedTools prevTools : list ToolEntry) :
  (exists added,
      importPrompts importedPrompts prevPrompts = (added ++ prevPrompts)%list
      /\ (forall p, In p added <->
                    In p importedPrompts
                    /\ ~ In (promptName p) (map promptName prevPrompts)))
  /\ (NoDup (map promptName importedPrompts) ->
      NoDup (map promptName prevPrompts) ->
      NoDup (map promptName (importPrompts importedPrompts prevPrompts)))
  /\ (exists added,
      importTools importedTools prevTools = (added ++ prevTools)%list
      /\ (forall t, In t added <->
                    In t importedTools
                    /\ ~ In (entryName t) (map entryName prevTools)))
  /\ (NoDup (map entryName importedTools) ->
      NoDup (map entryName prevTools) ->
      NoDup (map entryName (importTools importedTools prevTools))).
Proof.
  unfold importPrompts, importTools. repeat split.
  - eexists. split; [reflexivity|]. intros p.
    rewrite filter_In, negb_true_iff, includes_false. reflexivity.
  - apply import_merge_names.
  - eexists. split; [reflexivity|]. intros t.
    rewrite filter_In, negb_true_iff, includes_false. reflexivity.
  - apply import_merge_names.
Qed.

(** *** Prompts *)

(** X28. Editing a prompt never changes an id, a creation date or the order
    of the prompts; editing an id no prompt has changes nothing; and deleting
    the id of a prompt just created gives back the prompts without that id. *)
Theorem prompt_edits_keep_identity (now created updated : Z)
    (id name content : string) (prev : list Prompt) :
  map promptId (updatePrompt now id name content prev) = map promptId prev
  /\ map createdAt (updatePrompt now id name content prev)
     = map createdAt prev
  /\ (~ In id (map promptId prev) ->
      updatePrompt now id name content prev = prev)
  /\ deletePrompt id (createPrompt id created updated name content prev)
     = deletePrompt id prev.
Proof.
  unfold updatePrompt, deletePrompt, createPrompt. repeat split.
  - rewrite map_map. apply map_ext. intros prompt.
    now destruct (String.eqb (promptId prompt) id).
  - rewrite map_map. apply map_ext. intros prompt.
    now destruct (String.eqb (promptId prompt) id).
  - induction prev as [|prompt prev IH]; simpl; [reflexivity|].
    intros Hnot. rewrite IH by tauto.
    destruct (String.eqb_spec (promptId prompt) id) as [Heq|]; [|reflexivity].
    exfalso. apply Hnot. now left.
  - simpl. now rewrite String.eqb_refl.
Qed.

(** *** Settings *)

(** X29. [updateModel] accepts only models of the registry: an id no
    provider resolves for leaves the configuration as it was and sets the
    error; an accepted id replaces the model, clears the error and keeps
    credentials and sampling settings.  So a configuration whose model
    resolves keeps resolving. *)
Theorem updateModel_keeps_model_known (modelId : string) (s : Settings) :
  (getProviderForModel modelId = None ->
   updateModel modelId s
   = mkSettings (config s) (Some ("Unknown model: " ++ modelId)%string))
  /\ (getProviderForModel modelId <> None ->
      model (config (updateModel modelId s)) = modelId
      /\ error (updateModel modelId s) = None)
  /\ apiKey (config (updateModel modelId s)) = apiKey (config s)
  /\ baseUrl (config (updateModel modelId s)) = baseUrl (config s)
  /\ temperature (config (updateModel modelId s)) = temperature (config s)
  /\ maxTokens (config (updateModel modelId s)) = maxTokens (config s)
  /\ (getProviderForModel (model (config s)) <> None ->
      getProviderForModel (model (config (updateModel modelId s))) <> None).
Proof.
  unfold updateModel.
  destruct (getProviderForModel modelId) as [p|] eqn:Hp; simpl;
    repeat split; auto; try congruence.
Qed.

(** *** Streaming into the conversation *)

(** X30. Delivering chunks one by one to the [onChunk] callback of
    [sendMessage] appends their concatenation to the content of the
    placeholder message (the one with the assistant id) and changes no other
    message: after a streamed call the placeholder shows the text the call
    assembled. *)
Theorem onChunk_accumulates (assistantMessageId : string)
    (chunks : list string) (messages : list Message) :
  fold_left (fun ms chunk => onChunk assistantMessageId chunk ms)
            chunks messages
  = map (fun msg =>
           if String.eqb (msgId msg) assistantMessageId
           then mkMessage (msgId msg) (role msg)
                          (content msg ++ joined chunks)
                          (toolCalls msg) (toolCallId msg)
           else msg)
        messages.
Proof.
  revert messages.
  induction chunks as [|c chunks IH]; intros messages; simpl.
  - induction messages as [|msg messages IHm]; simpl; [reflexivity|].
    rewrite <- IHm. f_equal.
    destruct (String.eqb (msgId msg) assistantMessageId); [|reflexivity].
    rewrite append_empty_r. now destruct msg.
  - rewrite IH. unfold onChunk. rewrite map_map. apply map_ext.
    intros msg.
    destruct (String.eqb (msgId msg) assistantMessageId) eqn:Hid; simpl;
      rewrite Hid; [|reflexivity].
    now rewrite append_assoc.
Qed.

End StateFacts.

(* ================================================================== *)
(** ** The further properties on the scenario *)

Module MoreScenarioFacts.
Import Types CostCalculator Data Utils Statements Scenario Storage Hook
       MoreStatements MoreScenario
       FacadeFacts EventFacts RoundFacts StreamFacts StateFacts.
#[local] Close Scope Q_scope.
#[local] Open Scope Z_scope.

(** A model id outside the registry is rejected by the facade. *)
Lemma unknown_model_example :
  createApiCall (E := demoEnv 11) [question] unknownModel [] false false false
                emptyWorld
  = (Err "Unknown provider for model: does-not-exist", emptyWorld).
Proof.
  apply (@unknown_model_is_rejected (demoEnv 11) [question] unknownModel []
           false false false emptyWorld).
  reflexivity.
Defined.

(** A Google model with no key, typed in or stored. *)
Lemma gemini_without_key_example :
  createApiCall (E := demoEnv 11) [question] geminiWithoutKey [] false false
                false emptyWorld
  = (Err (keyRequired google), emptyWorld).
Proof.
  apply (@facade_missing_key (demoEnv 11) [question] geminiWithoutKey []
           false false false emptyWorld google).
  - reflexivity.
  - discriminate.
  - reflexivity.
  - reflexivity.
Defined.

(** The question under gpt-4o-mini, through the facade. *)
Lemma facade_result_example :
  exists p result,
    getProviderForModel (model gpt) = Some p
    /\ callProvider (E := demoEnv 11) p [question]
         (mergedConfig gpt (getProviderConfigs (Env := demoEnv 11) p))
         [] false false false emptyWorld
       = (Ok result,
          snd (createApiCall (E := demoEnv 11) [question] gpt [] false false
                             false emptyWorld))
    /\ finalContent
         (resultOf noCallResult
            (createApiCall (E := demoEnv 11) [question] gpt [] false false
                           false emptyWorld))
       = resContent result
    /\ issuedToolCalls
         (resultOf noCallResult
            (createApiCall (E := demoEnv 11) [question] gpt [] false false
                           false emptyWorld))
       = resToolCalls result
    /\ tokenUsage
         (metadata
            (resultOf noCallResult
               (createApiCall (E := demoEnv 11) [question] gpt [] false false
                              false emptyWorld)))
       = resTokenUsage result
    /\ metaCost
         (metadata
            (resultOf noCallResult
               (createApiCall (E := demoEnv 11) [question] gpt [] false false
                              false emptyWorld)))
       = option_map (fun u => calculateCost u (model gpt))
                    (resTokenUsage result)
    /\ timeTaken
         (metadata
            (resultOf noCallResult
               (createApiCall (E := demoEnv 11) [question] gpt [] false false
                              false emptyWorld)))
       = (Date_now (Env := demoEnv 11)
            (length
               (requests
                  (snd (createApiCall (E := demoEnv 11) [question] gpt []
                          false false false emptyWorld))))
          - Date_now (Env := demoEnv 11) (length (requests emptyWorld)))%Z.
Proof.
  apply (@facade_result (demoEnv 11) [question] gpt [] false false false
           emptyWorld
           (snd (createApiCall (E := demoEnv 11) [question] gpt [] false false
                               false emptyWorld))
           (resultOf noCallResult
              (createApiCall (E := demoEnv 11) [question] gpt [] false false
                             false emptyWorld))).
  reflexivity.
Defined.

(** gpt-4o-mini with a key is complete, so its call reaches the network. *)
Lemma complete_model_example :
  exists p,
    getProviderForModel (model gpt) = Some p
    /\ hasCredential p
         (mergedConfig gpt (getProviderConfigs (Env := demoEnv 11) p)) = true
    /\ forall req,
         requestOf (E := demoEnv 11) p [question]
           (mergedConfig gpt (getProviderConfigs (Env := demoEnv 11) p))
           [] false [question] = Some req ->
         exists rest,
           requests (snd (createApiCall (E := demoEnv 11) [question] gpt []
                            false false false emptyWorld))
           = (requests emptyWorld ++ req :: rest)%list.
Proof.
  apply (@complete_model_reaches_network (demoEnv 11) [question] gpt []
           false false false emptyWorld).
  reflexivity.
Defined.

(** With a tool to run, the OpenAI adapter delivers no chunk although
    [onChunk] is supplied. *)
Lemma no_chunk_with_tools_example :
  exists new,
    events (snd (callProvider (E := demoEnv 11) openai [question] gpt
                   [lookupTool] true true true emptyWorld))
    = (events emptyWorld ++ new)%list
    /\ Forall notChunk new.
Proof.
  apply (@no_chunk_without_streaming (demoEnv 11) openai [question] gpt
           [lookupTool] true true true emptyWorld).
  right. split.
  - discriminate.
  - reflexivity.
Defined.

(** Without tools the first answer is the result, after one request. *)
Lemma one_request_example :
  callProvider (E := demoEnv 11) openai [question] gpt [] false true true
               emptyWorld
  = (Ok (resultOf noResult (firstRound [])), snd (firstRound []))
  /\ exists req,
       requestOf (E := demoEnv 11) openai [question] gpt [] false [question]
       = Some req
       /\ requests (snd (firstRound [])) = (requests emptyWorld ++ [req])%list.
Proof.
  apply (@no_tool_calls_one_request (demoEnv 11) openai [question] gpt []
           false true true emptyWorld (snd (firstRound []))
           (resultOf noResult (firstRound []))).
  - reflexivity.
  - reflexivity.
  - left. reflexivity.
Defined.

(** The history of the second request of the lookup round. *)
Lemma lookup_round_history :
  exists assistantMessage toolMessages,
    role assistantMessage = assistant
    /\ content assistantMessage
       = resContent (resultOf noResult (firstRound [lookupTool]))
    /\ toolCalls assistantMessage = Some [lookupParis]
    /\ map role toolMessages = map (fun _ => tool) [lookupParis]
    /\ map toolCallId toolMessages
       = map (fun tc => Some (callId tc)) [lookupParis]
    /\ match requestOf (E := demoEnv 11) openai [question] gpt [lookupTool]
                       false
                       ([question] ++ assistantMessage :: toolMessages)%list
       with
       | Some req =>
           requests (snd (callProvider (E := demoEnv 11) openai [question]
                            gpt [lookupTool] false true true emptyWorld))
           = (requests (snd (firstRound [lookupTool])) ++ [req])%list
       | None =>
           requests (snd (callProvider (E := demoEnv 11) openai [question]
                            gpt [lookupTool] false true true emptyWorld))
           = requests (snd (firstRound [lookupTool]))
           /\ exists e,
                fst (callProvider (E := demoEnv 11) openai [question] gpt
                       [lookupTool] false true true emptyWorld) = Err e
       end.
Proof.
  apply (@tool_round_history (demoEnv 11) openai [question] gpt [lookupTool]
           false true true emptyWorld (snd (firstRound [lookupTool]))
           (resultOf noResult (firstRound [lookupTool])) [lookupParis]).
  - reflexivity.
  - reflexivity.
  - reflexivity.
  - reflexivity.
  - discriminate.
Defined.

(** The model asks for "lookup" while only "clock" was offered. *)
Lemma lookup_not_offered :
  exists history req,
    (exists i,
        In (mkMessage i tool
              ("Error: Tool " ++ dquote ++ callName lookupParis ++ dquote
               ++ " not found")
              None (Some (callId lookupParis)))
           history)
    /\ requestOf (E := demoEnv 11) openai [question] gpt [clockTool] false
                 history = Some req
    /\ requests (snd (callProvider (E := demoEnv 11) openai [question] gpt
                        [clockTool] false true true emptyWorld))
       = (requests (snd (firstRound [clockTool])) ++ [req])%list
    /\ (ok (fetch (Env := demoEnv 11)
              (length (requests (snd (firstRound [clockTool])))) req)
        = true ->
        exists r w',
          callProvider (E := demoEnv 11) openai [question] gpt
                       [clockTool] false true true emptyWorld
          = (Ok r, w')
          /\ resToolCalls r = Some [lookupParis]).
Proof.
  apply (@unknown_tool_is_fed_back (demoEnv 11) openai [question] gpt
           [clockTool] false true true emptyWorld
           (snd (firstRound [clockTool]))
           (resultOf noResult (firstRound [clockTool]))
           [lookupParis] lookupParis).
  - discriminate.
  - reflexivity.
  - reflexivity.
  - reflexivity.
  - reflexivity.
  - simpl; auto.
  - reflexivity.
Defined.

(** The local adapter on the question of the scenario. *)
Lemma llama_answer_not_empty :
  resContent
    (resultOf noResult
       (callProvider (E := demoEnv 11) ollama [question] llama [] false false
                     false emptyWorld))
  <> EmptyString.
Proof.
  apply (@ollama_content_never_empty (demoEnv 11) [question] llama [] false
           false false emptyWorld
           (snd (callProvider (E := demoEnv 11) ollama [question] llama []
                   false false false emptyWorld))
           (resultOf noResult
              (callProvider (E := demoEnv 11) ollama [question] llama []
                 false false false emptyWorld))).
  reflexivity.
Defined.

(** Saving a configuration over an older one and reading it back. *)
Lemma storage_round_trip_example :
  getConfig (E := storageEnv) usedStorage = JObj []
  /\ getConfig (E := storageEnv)
       (saveConfig (E := storageEnv) savedModel usedStorage) = savedModel
  /\ getStoredProviderConfigs (E := storageEnv)
       (saveProviderConfigs (E := storageEnv) savedModel usedStorage)
     = savedModel.
Proof.
  split; [reflexivity|].
  apply (@storage_round_trip storageEnv savedModel usedStorage).
  - reflexivity.
  - discriminate.
Defined.

End MoreScenarioFacts.
